(** * The C binding of Xapian (cxapian.h, cxapian.cc)

    The binding is a thin layer of [extern "C"] functions over the C++
    library: every function allocates or dereferences an opaque handle
    struct and forwards to one library call.  The embedding keeps the
    three things the functions really do:

    - heap allocation and deallocation of handle structs, library
      objects, exception objects and string storage (so that object
      lifetimes, and pointers that outlive their object, are visible);
    - C++ exceptions thrown by the library, caught by [try]/[catch] in
      the two database constructors and nowhere else;
    - conversions at the call boundary: [const char *] to [std::string]
      (cut at the first NUL) and [int] to the library's unsigned
      [termpos].

    The library itself is not part of the repository.  What it does is a
    parameter of the development (class [Xapian]); the value types
    [Document] and [Query] follow the data model of the specification. *)

From Stdlib Require Import ZArith Lia String Ascii.
From stdpp Require Import base option list.

Local Open Scope string_scope.

(** ** Characters and strings at the C boundary *)

Definition NUL : ascii := "000"%char.

(** A [std::string] built from a [const char *]: the characters before the
    first NUL of a char array; [None] when the array holds no NUL (the constructor would
    read past its end). *)
Fixpoint string_of_chars (a : string) : option string :=
  match a with
  | EmptyString => None
  | String c rest =>
      if Ascii.eqb c NUL then Some EmptyString
      else match string_of_chars rest with
           | Some s => Some (String c s)
           | None => None
           end
  end.

(** The characters of [b] before its first NUL, all of [b] when it has none. *)
Fixpoint until_NUL (b : string) : string :=
  match b with
  | EmptyString => EmptyString
  | String c rest => if Ascii.eqb c NUL then EmptyString else String c (until_NUL rest)
  end.

(** [b] holds no NUL byte. *)
Fixpoint NUL_free (b : string) : bool :=
  match b with
  | EmptyString => true
  | String c rest => negb (Ascii.eqb c NUL) && NUL_free rest
  end.

(** How a caller hands a byte sequence to a [const char *] parameter: the
    bytes followed by the terminator. *)
Definition as_C_string (b : string) : string := b ++ String NUL EmptyString.

(** ** Integers at the C boundary *)

(** [int] is 32 bits wide. *)
Definition int_range (z : Z) : Prop := (- 2 ^ 31 <= z < 2 ^ 31)%Z.

(** Conversion of an [int] argument to [Xapian::termpos] ([unsigned]):
    reduction modulo 2^32. *)
Definition termpos_of_int (pos : Z) : Z := (pos mod 2 ^ 32)%Z.

(** ** Values of the library *)

(** [Xapian::Error]: the exception class every library error derives from. *)
Record Error := XapianError { get_type : string; get_msg : string }.

(** Modelled from the spec: [Xapian::Document], declared in <xapian.h>, which
    the repository does not contain.  A document carries its data and the
    (term, position) pairs added to it, here in the order they were added. *)
Record Document := mkDocument {
  doc_data : string;
  doc_postings : list (string * Z)
}.

(** Modelled from the spec: [Xapian::Document::Document()], a document with
    no data and no terms. *)
Definition Document_new : Document := mkDocument EmptyString [].

(** Modelled from the spec: [Xapian::Document::set_data]. *)
Definition Document_set_data (data : string) (d : Document) : Document :=
  mkDocument data (doc_postings d).

(** Modelled from the spec: [Xapian::Document::add_posting]. *)
Definition Document_add_posting (tname : string) (tpos : Z) (d : Document) : Document :=
  mkDocument (doc_data d) (doc_postings d ++ [(tname, tpos)]).

(** Modelled from the spec: [Xapian::Query], declared in <xapian.h>.  A query
    is an immutable tree; an inner node keeps the operator code it was
    built with. *)
Inductive Query :=
| TermLeaf (tname : string)
| Combine (op : Z) (left right : Query).

(** ** The library as a parameter *)

(** Everything the binding calls and the sources do not define.  Calls that
    can throw return [inl] of the [Xapian::Error] thrown. *)
Class Xapian := {
  (** storage outside the process: database files and their locks *)
  world : Type;
  (** state of a [Xapian::Database] or [Xapian::WritableDatabase] object *)
  Database : Type;
  (** state of a [Xapian::Enquire] object *)
  Enquire : Type;
  (** enumerators of [Xapian::Query::op]: the name of a recognised code *)
  op_name : Z -> option string;
  (** [Xapian::WritableDatabase::WritableDatabase(const std::string &, int)] *)
  WritableDatabase_ctor : string -> Z -> world -> world * (Error + Database);
  (** [Xapian::Database::Database(const std::string &)] *)
  Database_ctor : string -> world -> world * (Error + Database);
  (** [Xapian::WritableDatabase::add_document(const Document &)]: the id
      assigned and the new state of the database object *)
  add_document : Document -> Database -> Error + (Z * Database);
  (** [Xapian::Enquire::Enquire(const Database &)] *)
  Enquire_ctor : Database -> Error + Enquire;
  (** [Xapian::Query::Query(Query::op, const Query &, const Query &)] *)
  Query_ctor : Z -> Query -> Query -> Error + Query
}.

Definition recognised_op `{Xapian} (op : Z) : Prop := is_Some (op_name op).

(** Modelled from the spec: [Xapian::Query::get_description()].  Operands are
    rendered in the order the node holds them. *)
Fixpoint describe_tree `{Xapian} (q : Query) : string :=
  match q with
  | TermLeaf tname => tname
  | Combine op l r =>
      "(" ++ describe_tree l ++ " " ++ default "?" (op_name op) ++ " "
          ++ describe_tree r ++ ")"
  end.

(** Modelled from the spec: the text [get_description()] returns, the tree
    wrapped in the name of the class. *)
Definition get_description `{Xapian} (q : Query) : string :=
  "Xapian::Query(" ++ describe_tree q ++ ")".

(** ** Memory, exceptions and the binding *)

Definition ptr := nat.
Definition NULL : ptr := 0.

Section Binding.
Context `{X : Xapian}.

(** What a heap cell holds. *)
Inductive object :=
| O_chars (a : string)                    (* a char array of the caller *)
| O_charp (p : ptr)                       (* a [const char *] variable of the caller *)
| O_string (s : string)                   (* the character storage of a std::string *)
| O_Error (type : string) (msg : ptr)     (* an exception object; [msg] is the storage of its message *)
| O_indeterminate                         (* a handle struct made by [new T;]: its pointer member is not initialised *)
| O_xapian_database_t (xapian_database : ptr)
| O_xapian_document_t (xapian_document : ptr)
| O_xapian_enquire_t (xapian_enquire : ptr)
| O_xapian_query_t (xapian_query : ptr)
| O_Database (writable : bool) (d : Database)
| O_Document (d : Document)
| O_Enquire (e : Enquire)
| O_Query (q : Query).

(** Address [S i] is slot [i] of the heap; a freed slot is [None] and is
    never handed out again. *)
Record state := mkState { env : world; mem : list (option object) }.

Definition cell (p : ptr) (s : state) : option object :=
  match p with
  | O => None
  | S i => mjoin (mem s !! i)
  end.

Definition dangling (p : ptr) (s : state) : Prop := p <> NULL /\ cell p s = None.

Definition set_cell (p : ptr) (c : option object) (s : state) : state :=
  match p with
  | O => s
  | S i => mkState (env s) (<[i := c]> (mem s))
  end.

(** A call returns, leaves by an exception in flight, or has undefined
    behaviour. *)
Inductive outcome (A : Type) :=
| Ret (a : A) (s : state)
| Throw (e : ptr) (s : state)
| Undef.
Arguments Ret {A} a s.
Arguments Throw {A} e s.
Arguments Undef {A}.

Definition M (A : Type) : Type := state -> outcome A.

#[global] Instance M_ret : MRet M := fun A a s => Ret a s.
#[global] Instance M_bind : MBind M := fun A B f m s =>
  match m s with
  | Ret a s' => f a s'
  | Throw e s' => Throw e s'
  | Undef => Undef
  end.

Definition undef {A} : M A := fun _ => Undef.

(** [new T(...)]: the object is placed at the next address, which no
    object has had before. *)
Definition fresh (s : state) : ptr := S (length (mem s)).
Definition alloc (o : object) (s : state) : state :=
  mkState (env s) (mem s ++ [Some o]).
Definition new (o : object) : M ptr := fun s => Ret (fresh s) (alloc o s).

(** [*p] *)
Definition load (p : ptr) : M object := fun s =>
  match cell p s with
  | Some o => Ret o s
  | None => Undef
  end.

(** [*p = o] *)
Definition store (p : ptr) (o : object) : M unit := fun s =>
  match cell p s with
  | Some _ => Ret tt (set_cell p (Some o) s)
  | None => Undef
  end.

(** [delete p] *)
Definition delete (p : ptr) : M unit := fun s =>
  match p with
  | O => Ret tt s
  | S _ =>
      match cell p s with
      | Some _ => Ret tt (set_cell p None s)
      | None => Undef
      end
  end.

(** [throw err]: the exception object and the storage of its message are
    allocated, and the exception is in flight. *)
Definition throw {A} (err : Error) : M A := fun s =>
  match new (O_string (get_msg err)) s with
  | Ret m s1 =>
      match new (O_Error (get_type err) m) s1 with
      | Ret e s2 => Throw e s2
      | _ => Undef
      end
  | _ => Undef
  end.

(** Destruction of a caught exception when its handler is left. *)
Definition destroy_exception (e : ptr) : M unit :=
  o ← load e;
  match o with
  | O_Error _ m => delete m;; delete e
  | _ => undef
  end.

(** [try { body } catch (const Xapian::Error & error) { handler }] *)
Definition try_catch {A} (body : M A) (handler : ptr -> M A) : M A := fun s =>
  match body s with
  | Throw e s1 =>
      match handler e s1 with
      | Ret a s2 =>
          match destroy_exception e s2 with
          | Ret _ s3 => Ret a s3
          | _ => Undef
          end
      | r => r
      end
  | r => r
  end.

(** [error.get_msg()]: a reference to the message held by the exception. *)
Definition Error_get_msg (error : ptr) : M ptr :=
  o ← load error;
  match o with
  | O_Error _ m => mret m
  | _ => undef
  end.

(** [s.c_str()]: the address of the storage of [s]. *)
Definition c_str (s : ptr) : ptr := s.

(** [std::string(p)] for a [const char *p] *)
Definition std_string (p : ptr) : M string :=
  o ← load p;
  match o with
  | O_chars a =>
      match string_of_chars a with
      | Some s => mret s
      | None => undef
      end
  | _ => undef
  end.

(** A library call that can throw. *)
Definition call {A} (r : Error + A) : M A :=
  match r with
  | inr a => mret a
  | inl err => throw err
  end.

(** The same for a constructor that acts on the storage outside. *)
Definition with_env (w : world) (s : state) : state := mkState w (mem s).
Definition call_world {A} (f : world -> world * (Error + A)) : M A := fun s =>
  let '(w, r) := f (env s) in call r (with_env w s).

(** Field accesses [h->xapian_...]. *)
Definition get_xapian_database (h : ptr) : M ptr :=
  o ← load h; match o with O_xapian_database_t p => mret p | _ => undef end.
Definition get_xapian_document (h : ptr) : M ptr :=
  o ← load h; match o with O_xapian_document_t p => mret p | _ => undef end.
Definition get_xapian_query (h : ptr) : M ptr :=
  o ← load h; match o with O_xapian_query_t p => mret p | _ => undef end.

(** Dereferences of library objects. *)
Definition deref_Database (p : ptr) : M Database :=
  o ← load p; match o with O_Database _ d => mret d | _ => undef end.
(** through [static_cast <Xapian::WritableDatabase *>] *)
Definition deref_WritableDatabase (p : ptr) : M Database :=
  o ← load p; match o with O_Database true d => mret d | _ => undef end.
Definition deref_Document (p : ptr) : M Document :=
  o ← load p; match o with O_Document d => mret d | _ => undef end.
Definition deref_Query (p : ptr) : M Query :=
  o ← load p; match o with O_Query q => mret q | _ => undef end.

(** *** cxapian.cc *)

(** [new xapian_database_t()] value-initialises the struct, so here the
    member starts as NULL; the other constructors write [new T;], which
    leaves it indeterminate. *)
Definition xapian_writable_db_new (cFilename : ptr) (options : Z) (errorStr : ptr)
  : M ptr :=
  db ← new (O_xapian_database_t NULL);
  try_catch
    (filename ← std_string cFilename;
     d ← call_world (WritableDatabase_ctor filename options);
     p ← new (O_Database true d);
     store db (O_xapian_database_t p);;
     mret db)
    (fun error =>
     msg ← Error_get_msg error;
     store errorStr (O_charp (c_str msg));;
     delete db;;
     mret NULL).

Definition xapian_writable_db_add_document (database document : ptr) : M unit :=
  p ← get_xapian_database database;
  wdb ← deref_WritableDatabase p;
  q ← get_xapian_document document;
  doc ← deref_Document q;
  r ← call (add_document doc wdb);
  store p (O_Database true r.2).

Definition xapian_database_new (cFilename : ptr) (errorStr : ptr) : M ptr :=
  db ← new O_indeterminate;
  try_catch
    (filename ← std_string cFilename;
     d ← call_world (Database_ctor filename);
     p ← new (O_Database false d);
     store db (O_xapian_database_t p);;
     mret db)
    (fun error =>
     msg ← Error_get_msg error;
     store errorStr (O_charp (c_str msg));;
     delete db;;
     mret NULL).

Definition xapian_document_new : M ptr :=
  document ← new O_indeterminate;
  p ← new (O_Document Document_new);
  store document (O_xapian_document_t p);;
  mret document.

Definition xapian_document_set_data (doc : ptr) (data : ptr) : M unit :=
  p ← get_xapian_document doc;
  d ← deref_Document p;
  s ← std_string data;
  store p (O_Document (Document_set_data s d)).

Definition xapian_document_add_posting (doc : ptr) (posting : ptr) (pos : Z) : M unit :=
  p ← get_xapian_document doc;
  d ← deref_Document p;
  s ← std_string posting;
  store p (O_Document (Document_add_posting s (termpos_of_int pos) d)).

Definition xapian_enquire_new (database : ptr) : M ptr :=
  enquire ← new O_indeterminate;
  p ← get_xapian_database database;
  d ← deref_Database p;
  e ← call (Enquire_ctor d);
  q ← new (O_Enquire e);
  store enquire (O_xapian_enquire_t q);;
  mret enquire.

Definition xapian_query_new (term : ptr) : M ptr :=
  query ← new O_indeterminate;
  s ← std_string term;
  p ← new (O_Query (TermLeaf s));
  store query (O_xapian_query_t p);;
  mret query.

Definition xapian_query_combine (op : Z) (qa qb : ptr) : M ptr :=
  query ← new O_indeterminate;
  pa ← get_xapian_query qa;
  a ← deref_Query pa;
  pb ← get_xapian_query qb;
  b ← deref_Query pb;
  q ← call (Query_ctor op a b);
  p ← new (O_Query q);
  store query (O_xapian_query_t p);;
  mret query.

(** [q->get_description()]: the description is returned by value, in a
    temporary [std::string]. *)
Definition Query_get_description (p : ptr) : M ptr :=
  q ← deref_Query p;
  new (O_string (get_description q)).

(** The temporary is destroyed when the [return] statement has been
    evaluated, before the caller sees the result. *)
Definition xapian_query_describe (query : ptr) : M ptr :=
  p ← get_xapian_query query;
  tmp ← Query_get_description p;
  let result := c_str tmp in
  delete tmp;;
  mret result.

(** The text [xapian_query_describe] builds for [query] in state [s]: what
    the temporary holds while it exists. *)
Definition description (query : ptr) (s : state) : option string :=
  match (p ← get_xapian_query query; Query_get_description p) s with
  | Ret tmp s' =>
      match cell tmp s' with
      | Some (O_string d) => Some d
      | _ => None
      end
  | _ => None
  end.

(** *** Well-formed arguments *)

(** [p] points to a NUL-terminated char array whose text is [text]. *)
Definition C_string_at (p : ptr) (text : string) (s : state) : Prop :=
  exists a, cell p s = Some (O_chars a) /\ string_of_chars a = Some text.

(** [h] is a handle of the library object [o], held at [p]. *)
Definition database_handle (h p : ptr) (writable : bool) (d : Database) (s : state) : Prop :=
  cell h s = Some (O_xapian_database_t p) /\ cell p s = Some (O_Database writable d).
Definition document_handle (h p : ptr) (d : Document) (s : state) : Prop :=
  cell h s = Some (O_xapian_document_t p) /\ cell p s = Some (O_Document d).
Definition query_handle (h p : ptr) (q : Query) (s : state) : Prop :=
  cell h s = Some (O_xapian_query_t p) /\ cell p s = Some (O_Query q).
Definition enquire_handle (h p : ptr) (e : Enquire) (s : state) : Prop :=
  cell h s = Some (O_xapian_enquire_t p) /\ cell p s = Some (O_Enquire e).

(** The state in which the handler of a failed open runs: the handle struct
    has been allocated, the constructor has acted on the storage and thrown
    [err].  (In [xapian_database_new] the member of the handle struct is
    indeterminate there instead of NULL; every other address holds the
    same.) *)
Definition at_catch (w : world) (err : Error) (s : state) : state :=
  alloc (O_Error (get_type err) (S (fresh s)))
    (alloc (O_string (get_msg err))
       (with_env w (alloc (O_xapian_database_t NULL) s))).

(** The state a failed open leaves: the message address is stored, then the
    handle struct, the message and the exception object are destroyed. *)
Definition after_catch (w : world) (err : Error) (errorStr : ptr) (s : state) : state :=
  set_cell (S (S (fresh s))) None
    (set_cell (S (fresh s)) None
       (set_cell (fresh s) None
          (set_cell errorStr (Some (O_charp (S (fresh s)))) (at_catch w err s)))).

(** The state a successful open leaves: the handle struct at [fresh s]
    points to the library object allocated after it. *)
Definition after_open (writable : bool) (w : world) (d : Database) (s : state) : state :=
  set_cell (fresh s) (Some (O_xapian_database_t (S (fresh s))))
    (alloc (O_Database writable d)
       (with_env w (alloc (O_xapian_database_t NULL) s))).

(** The state a constructor of the binding leaves: the handle struct at
    [fresh s], first [blank], is made to point to the library object [o]
    allocated after it. *)
Definition after_new (blank handle o : object) (s : state) : state :=
  set_cell (fresh s) (Some handle) (alloc o (alloc blank s)).

(** What an open call must have done, given what the library constructor
    did ([r]): on success a non-NULL handle of the new database object and
    the caller's error variable left as it was; on failure NULL, and in the
    caller's error variable the address at which the handler found the
    message of the exception. *)
Definition open_result (writable : bool) (r : world * (Error + Database))
    (errorStr old : ptr) (s : state) (out : outcome ptr) : Prop :=
  match r with
  | (w, inr d) =>
      exists db p s',
        out = Ret db s' /\ db <> NULL /\
        database_handle db p writable d s' /\ env s' = w /\
        cell errorStr s' = Some (O_charp old)
  | (w, inl err) =>
      exists msg s',
        out = Ret NULL s' /\ env s' = w /\
        cell errorStr s' = Some (O_charp msg) /\ msg <> NULL /\
        cell msg (at_catch w err s) = Some (O_string (get_msg err))
  end.


(** A constructor of the binding returned a handle: non-NULL, at an address
    that was not in use, with every object that existed before unchanged. *)
Definition returns_new_handle (out : outcome ptr) (s : state)
    (is_handle : ptr -> ptr -> state -> Prop) : Prop :=
  exists h p s',
    out = Ret h s' /\ h <> NULL /\ cell h s = None /\ is_handle h p s' /\
    env s' = env s /\
    forall r o, cell r s = Some o -> cell r s' = Some o.

(** A call left by the exception [err], uncaught: no value is returned, the
    exception object holds the type and the message of [err], and every
    object that existed before is unchanged. *)
Definition leaves_by_exception (err : Error) (out : outcome ptr) (s : state) : Prop :=
  exists e msg s',
    out = Throw e s' /\
    cell e s' = Some (O_Error (get_type err) msg) /\
    cell msg s' = Some (O_string (get_msg err)) /\
    env s' = env s /\
    forall r o, cell r s = Some o -> cell r s' = Some o.

(** Every object of [s] is an object of [s'], unchanged. *)
Definition preserved (s s' : state) : Prop :=
  forall p o, cell p s = Some o -> cell p s' = Some o.

End Binding.

Arguments Ret {X A} a s.
Arguments Throw {X A} e s.
Arguments Undef {X A}.

(** ** A reference library

    An instance of [Xapian] small enough to run, after the index writer,
    index reader and query model of the specification. *)
Module Ref.

(** Modelled from the spec: the storage the library works on, missing from
    the sources with the library.  A path has its committed documents, and
    may be write-locked. *)
Record storage := mkStorage {
  committed : list (string * list Document);
  locked : list string
}.

(** Modelled from the spec: the state of a database object, the documents
    of the snapshot it was opened on followed by those added since. *)
Record database := mkDatabase { db_path : string; db_docs : list Document }.

Fixpoint snapshot (path : string) (l : list (string * list Document))
  : option (list Document) :=
  match l with
  | [] => None
  | (p, docs) :: rest => if String.eqb p path then Some docs else snapshot path rest
  end.

Definition is_locked (path : string) (w : storage) : bool :=
  existsb (String.eqb path) (locked w).

(** Modelled from the spec: the constructor of [Xapian::Database], which
    fails when nothing is stored at the path. *)
Definition open_readable (path : string) (w : storage)
  : storage * (Error + database) :=
  match snapshot path (committed w) with
  | Some docs => (w, inr (mkDatabase path docs))
  | None => (w, inl (XapianError "DatabaseOpeningError"
                       ("Couldn't detect type of database " ++ path)))
  end.

(** Modelled from the spec: the constructor of [Xapian::WritableDatabase],
    which fails when the path is locked by a writer, and otherwise opens or
    creates the database and takes the lock. *)
Definition open_writable (path : string) (action : Z) (w : storage)
  : storage * (Error + database) :=
  if is_locked path w then
    (w, inl (XapianError "DatabaseLockError"
               ("Unable to get write lock on " ++ path ++ ": already locked")))
  else
    match snapshot path (committed w) with
    | Some docs =>
        (mkStorage (committed w) (path :: locked w), inr (mkDatabase path docs))
    | None =>
        (mkStorage ((path, []) :: committed w) (path :: locked w),
         inr (mkDatabase path []))
    end.

(** Modelled from the spec: [Xapian::WritableDatabase::add_document], which
    assigns the next sequential id; ids start at 1. *)
Definition add (doc : Document) (db : database) : Error + (Z * database) :=
  inr (Z.of_nat (S (length (db_docs db))),
       mkDatabase (db_path db) (db_docs db ++ [doc])).

(** Modelled from the spec: the operators of [Xapian::Query::op], AND, OR,
    AND_NOT and further ones, numbered from 0. *)
Definition names (op : Z) : option string :=
  match op with
  | 0%Z => Some "AND"
  | 1%Z => Some "OR"
  | 2%Z => Some "AND_NOT"
  | 3%Z => Some "XOR"
  | 4%Z => Some "AND_MAYBE"
  | 5%Z => Some "FILTER"
  | 6%Z => Some "NEAR"
  | 7%Z => Some "PHRASE"
  | _ => None
  end.

(** Modelled from the spec: the constructor of an inner query node, which
    fails with InvalidOperatorError on a code it does not accept. *)
Definition combine (accepts : Z -> bool) (op : Z) (l r : Query) : Error + Query :=
  if accepts op then inr (Combine op l r)
  else inl (XapianError "InvalidOperatorError" "unrecognised operator code").

Definition library (accepts : Z -> bool) : Xapian := {|
  world := storage;
  Database := database;
  Enquire := database;
  op_name := names;
  WritableDatabase_ctor := open_writable;
  Database_ctor := open_readable;
  add_document := add;
  Enquire_ctor := fun d => inr d;
  Query_ctor := combine accepts
|}.

(** The library of the specification: its constructor rejects the codes
    the operator table does not list. *)
Definition strict : Xapian := library (fun op => bool_decide (is_Some (names op))).

End Ref.



(** ** Concrete states on the reference library *)

(** A store with one committed, unlocked database. *)
Definition store_idle : Ref.storage := Ref.mkStorage [("/idx", [])] [].
(** No database at "/idx", and a writer holding its lock. *)
Definition store_locked : Ref.storage := Ref.mkStorage [] ["/idx"].

(** The caller's memory before an open: the path and an error variable. *)
Definition before_open (w : Ref.storage) : @state Ref.strict :=
  @mkState Ref.strict w [Some (O_chars (as_C_string "/idx")); Some (O_charp NULL)].

(** Two term queries, "a" behind handle 1 and "b" behind handle 3. *)
Definition two_queries (X : Xapian) (w : @world X) : @state X :=
  @mkState X w
    [Some (O_xapian_query_t 2); Some (O_Query (TermLeaf "a"));
     Some (O_xapian_query_t 4); Some (O_Query (TermLeaf "b"))].

(** The caller's memory before any query is built: the two terms. *)
Definition two_terms : @state Ref.strict :=
  @mkState Ref.strict store_idle
    [Some (O_chars (as_C_string "a")); Some (O_chars (as_C_string "b"))].

(** ... after [xapian_query_new] on the first term, *)
Definition one_query_built : @state Ref.strict :=
  @mkState Ref.strict store_idle
    (mem two_terms ++ [Some (O_xapian_query_t 4); Some (O_Query (TermLeaf "a"))]).

(** ... on the second, *)
Definition two_queries_built : @state Ref.strict :=
  @mkState Ref.strict store_idle
    (mem one_query_built ++ [Some (O_xapian_query_t 6); Some (O_Query (TermLeaf "b"))]).

(** ... and after [xapian_query_combine] of the two with AND (code 0). *)
Definition and_query_built : @state Ref.strict :=
  @mkState Ref.strict store_idle
    (mem two_queries_built ++
       [Some (O_xapian_query_t 8);
        Some (O_Query (Combine 0 (TermLeaf "a") (TermLeaf "b")))]).

(** A writable database without documents behind handle 1 and a document
    behind handle 3. *)
Definition writer_and_document : @state Ref.strict :=
  @mkState Ref.strict (Ref.mkStorage [("/idx", [])] ["/idx"])
    [Some (O_xapian_database_t 2);
     Some (@O_Database Ref.strict true (Ref.mkDatabase "/idx" []));
     Some (O_xapian_document_t 4);
     Some (O_Document (mkDocument "doc1" [("x", 1%Z); ("x", 2%Z)]))].

(** Three bytes with a NUL in the middle. *)
Definition bytes_a_NUL_b : string := String "a" (String NUL (String "b" EmptyString)).

(** A new document behind handle 1 and a char array at address 3. *)
Definition document_and_chars (bytes : string) : @state Ref.strict :=
  @mkState Ref.strict store_idle
    [Some (O_xapian_document_t 2); Some (O_Document Document_new);
     Some (O_chars (as_C_string bytes))].

(** A term at address 1, the queries "a" and "b" behind handles 2 and 4, and
    a read-only database behind handle 6. *)
Definition term_queries_database : @state Ref.strict :=
  @mkState Ref.strict store_idle
    [Some (O_chars (as_C_string "c"));
     Some (O_xapian_query_t 3); Some (O_Query (TermLeaf "a"));
     Some (O_xapian_query_t 5); Some (O_Query (TermLeaf "b"));
     Some (O_xapian_database_t 7);
     Some (@O_Database Ref.strict false (Ref.mkDatabase "/idx" []))].

(** ** Destruction of handles

    The four [xapian_..._delete] functions of cxapian.cc.  Destroying a
    database object closes it, which acts on the storage outside; what the
    library's destructor does there is one more parameter. *)

(** The [int] a caller holding an unsigned position passes for it, the value of the
    same 32 bits read as signed. *)
Definition int_of_termpos (u : Z) : Z :=
  (if u <? 2 ^ 31 then u else u - 2 ^ 32)%Z.

Class XapianDtor (X : Xapian) := {
  (** [Xapian::Database::~Database()] (virtual), for an object that was
      opened writable or read-only *)
  Database_dtor : bool -> Database -> world -> world
}.

Section Deletion.
Context `{X : Xapian} `{D : !XapianDtor X}.

Definition get_xapian_enquire (h : ptr) : M ptr :=
  o ← load h; match o with O_xapian_enquire_t p => mret p | _ => undef end.

Definition deref_Enquire (p : ptr) : M Enquire :=
  o ← load p; match o with O_Enquire e => mret e | _ => undef end.

(** The destructor of a database object runs on the storage. *)
Definition close_Database (writable : bool) (d : Database) : M unit := fun s =>
  Ret tt (with_env (Database_dtor writable d (env s)) s).

(** [delete p] for [p] of type [Xapian::Database *]: nothing for a null
    pointer, otherwise the destructor, then deallocation. *)
Definition delete_Database (p : ptr) : M unit :=
  match p with
  | O => mret tt
  | S _ =>
      o ← load p;
      match o with
      | O_Database writable d => close_Database writable d;; delete p
      | _ => undef
      end
  end.

(** The same for the library objects whose destructors leave the storage
    alone. *)
Definition delete_Document (p : ptr) : M unit :=
  match p with
  | O => mret tt
  | S _ => deref_Document p;; delete p
  end.

Definition delete_Enquire (p : ptr) : M unit :=
  match p with
  | O => mret tt
  | S _ => deref_Enquire p;; delete p
  end.

Definition delete_Query (p : ptr) : M unit :=
  match p with
  | O => mret tt
  | S _ => deref_Query p;; delete p
  end.

Definition xapian_database_delete (database : ptr) : M unit :=
  p ← get_xapian_database database;
  delete_Database p;;
  delete database.

Definition xapian_document_delete (document : ptr) : M unit :=
  p ← get_xapian_document document;
  delete_Document p;;
  delete document.

Definition xapian_enquire_delete (enquire : ptr) : M unit :=
  p ← get_xapian_enquire enquire;
  delete_Enquire p;;
  delete enquire.

Definition xapian_query_delete (query : ptr) : M unit :=
  p ← get_xapian_query query;
  delete_Query p;;
  delete query.

End Deletion.

(** Modelled from the spec: closing a database on the reference library.  A
    writer commits the documents of its object and gives up the lock; a
    reader leaves the storage as it is. *)
Fixpoint ref_commit (path : string) (docs : list Document)
    (l : list (string * list Document)) : list (string * list Document) :=
  match l with
  | [] => [(path, docs)]
  | (p, old) :: rest =>
      if String.eqb p path then (p, docs) :: rest
      else (p, old) :: ref_commit path docs rest
  end.

Definition ref_close (writable : bool) (d : Ref.database) (w : Ref.storage)
  : Ref.storage :=
  if writable then
    Ref.mkStorage (ref_commit (Ref.db_path d) (Ref.db_docs d) (Ref.committed w))
      (List.filter (fun p => negb (String.eqb p (Ref.db_path d))) (Ref.locked w))
  else w.

#[global] Instance ref_dtor_strict : XapianDtor Ref.strict :=
  Build_XapianDtor Ref.strict ref_close.

(** A term at address 1, then a document, a query, an enquire and a
    writable database behind the handles 2, 4, 6 and 8, and an error
    variable at address 10. *)
Definition one_of_each : @state Ref.strict :=
  @mkState Ref.strict (Ref.mkStorage [("/idx", [])] ["/idx"])
    [Some (O_chars (as_C_string "c"));
     Some (O_xapian_document_t 3); Some (O_Document (mkDocument "d" [("t", 5%Z)]));
     Some (O_xapian_query_t 5); Some (O_Query (TermLeaf "a"));
     Some (O_xapian_enquire_t 7); Some (@O_Enquire Ref.strict (Ref.mkDatabase "/idx" []));
     Some (O_xapian_database_t 9);
     Some (@O_Database Ref.strict true (Ref.mkDatabase "/idx" []));
     Some (O_charp NULL)].

(** A library whose [add_document] and enquire constructor always throw, as
    on storage that takes no more writes; it serves to run the paths on
    which those calls fail. *)
Definition faulty : Xapian := {|
  world := Ref.storage;
  Database := Ref.database;
  Enquire := Ref.database;
  op_name := Ref.names;
  WritableDatabase_ctor := Ref.open_writable;
  Database_ctor := Ref.open_readable;
  add_document := fun _ _ => inl (XapianError "DatabaseError" "no space left");
  Enquire_ctor := fun _ => inl (XapianError "DatabaseError" "cannot read");
  Query_ctor := Ref.combine (fun op => bool_decide (is_Some (Ref.names op)))
|}.

(** The objects of [one_of_each] on that library. *)
Definition one_of_each_faulty : @state faulty :=
  @mkState faulty (Ref.mkStorage [("/idx", [])] ["/idx"])
    [Some (O_chars (as_C_string "c"));
     Some (O_xapian_document_t 3); Some (O_Document (mkDocument "d" [("t", 5%Z)]));
     Some (O_xapian_query_t 5); Some (O_Query (TermLeaf "a"));
     Some (O_xapian_enquire_t 7); Some (@O_Enquire faulty (Ref.mkDatabase "/idx" []));
     Some (O_xapian_database_t 9);
     Some (@O_Database faulty true (Ref.mkDatabase "/idx" []));
     Some (O_charp NULL)].

(** Two terms that agree up to a NUL byte, at addresses 1 and 2. *)
Definition terms_with_NUL : @state Ref.strict :=
  @mkState Ref.strict store_idle
    [Some (O_chars (as_C_string bytes_a_NUL_b)); Some (O_chars (as_C_string "a"))].

(** A new document behind handle 1 and, at address 3, three characters
    without a terminator. *)
Definition unterminated_chars : @state Ref.strict :=
  @mkState Ref.strict store_idle
    [Some (O_xapian_document_t 2); Some (O_Document Document_new);
     Some (O_chars "abc")].

(** ** Properties *)

Section Properties.
Context `{X : Xapian}.

(** *** Memory *)

Lemma cell_live_lt (p : ptr) (s : state) (o : object) :
  cell p s = Some o -> exists i, p = S i /\ i < length (mem s).
Proof.
  destruct p as [|i]; simpl; [discriminate|].
  intros H. exists i. split; [reflexivity|].
  destruct (mem s !! i) eqn:E; [|discriminate].
  eapply lookup_lt_Some; eassumption.
Qed.

Lemma cell_alloc_old (p : ptr) (o o' : object) (s : state) :
  cell p s = Some o -> cell p (alloc o' s) = Some o.
Proof.
  intros H. destruct (cell_live_lt _ _ _ H) as (i & -> & Hi).
  simpl in *. rewrite lookup_app_l; assumption.
Qed.

Lemma cell_alloc_fresh (o : object) (s : state) :
  cell (fresh s) (alloc o s) = Some o.
Proof. simpl. rewrite list_lookup_middle; reflexivity. Qed.

Lemma cell_fresh (s : state) : cell (fresh s) s = None.
Proof. simpl. rewrite lookup_ge_None_2; [reflexivity | lia]. Qed.

Lemma cell_beyond (p : ptr) (s : state) :
  length (mem s) < p -> cell p s = None.
Proof.
  destruct p as [|i]; [reflexivity|]. intros H. simpl.
  rewrite lookup_ge_None_2; [reflexivity | lia].
Qed.

Lemma fresh_alloc (o : object) (s : state) : fresh (alloc o s) = S (fresh s).
Proof. unfold fresh, alloc. simpl. rewrite length_app. simpl. lia. Qed.

Lemma live_not_fresh (p : ptr) (o : object) (s : state) :
  cell p s = Some o -> p <> fresh s.
Proof. intros H ->. rewrite cell_fresh in H. discriminate. Qed.

Lemma cell_with_env (p : ptr) (w : world) (s : state) :
  cell p (with_env w s) = cell p s.
Proof. destruct p; reflexivity. Qed.

Lemma fresh_with_env (w : world) (s : state) : fresh (with_env w s) = fresh s.
Proof. reflexivity. Qed.

Lemma cell_set_eq (p : ptr) (c : option object) (s : state) (o : object) :
  cell p s = Some o -> cell p (set_cell p c s) = c.
Proof.
  intros H. destruct (cell_live_lt _ _ _ H) as (i & -> & Hi).
  simpl. rewrite list_lookup_insert_eq; [reflexivity | assumption].
Qed.

Lemma cell_set_ne (p q : ptr) (c : option object) (s : state) :
  p <> q -> cell q (set_cell p c s) = cell q s.
Proof.
  intros H. destruct p as [|i]; [reflexivity|].
  destruct q as [|j]; [reflexivity|]. simpl.
  rewrite list_lookup_insert_ne; [reflexivity | congruence].
Qed.

Lemma env_set_cell (p : ptr) (c : option object) (s : state) :
  env (set_cell p c s) = env s.
Proof. destruct p; reflexivity. Qed.

Lemma fresh_set_cell (p : ptr) (c : option object) (s : state) :
  fresh (set_cell p c s) = fresh s.
Proof. destruct p; unfold fresh; simpl; [reflexivity | by rewrite length_insert]. Qed.

(** *** Running the primitives *)

Lemma run_bind {A B} (m : M A) (f : A -> M B) (s : state) :
  (m ≫= f) s =
  match m s with
  | Ret a s' => f a s'
  | Throw e s' => Throw e s'
  | Undef => Undef
  end.
Proof. reflexivity. Qed.

Lemma run_load (p : ptr) (o : object) (s : state) :
  cell p s = Some o -> load p s = Ret o s.
Proof. unfold load. intros ->. reflexivity. Qed.

Lemma run_store (p : ptr) (o o' : object) (s : state) :
  cell p s = Some o' -> store p o s = Ret tt (set_cell p (Some o) s).
Proof. unfold store. intros ->. reflexivity. Qed.

Lemma run_delete (p : ptr) (o : object) (s : state) :
  cell p s = Some o -> delete p s = Ret tt (set_cell p None s).
Proof.
  unfold delete. intros H. rewrite H.
  destruct p; [discriminate | reflexivity].
Qed.

Lemma run_std_string (p : ptr) (text : string) (s : state) :
  C_string_at p text s -> std_string p s = Ret text s.
Proof.
  intros (a & Ha & Ht). unfold std_string.
  rewrite run_bind, (run_load _ _ _ Ha), Ht. reflexivity.
Qed.

Lemma run_throw {A} (err : Error) (s : state) :
  @throw X A err s =
  Throw (S (fresh s))
    (alloc (O_Error (get_type err) (fresh s)) (alloc (O_string (get_msg err)) s)).
Proof. unfold throw, new. rewrite fresh_alloc. reflexivity. Qed.

(** *** Opening a database *)

Lemma run_call_world_throw {A} (f : world -> world * (Error + A)) w err s :
  f (env s) = (w, inl err) ->
  call_world f s = throw err (with_env w s).
Proof. unfold call_world. intros ->. reflexivity. Qed.

Lemma run_call_world_ret {A} (f : world -> world * (Error + A)) w a s :
  f (env s) = (w, inr a) ->
  call_world f s = Ret a (with_env w s).
Proof. unfold call_world. intros ->. reflexivity. Qed.

Lemma C_string_at_alloc p text o s :
  C_string_at p text s -> C_string_at p text (alloc o s).
Proof.
  intros (a & Ha & Ht). exists a. split; [|assumption].
  eapply cell_alloc_old; eassumption.
Qed.

(** What the handler of both constructors does, from the state in which the
    exception was thrown. *)
Lemma run_handler errorStr old db o err s :
  cell errorStr s = Some (O_charp old) ->
  cell db s = Some o ->
  errorStr <> db ->
  let s1 := alloc (O_Error (get_type err) (fresh s)) (alloc (O_string (get_msg err)) s) in
  match
    (Error_get_msg (S (fresh s))
       ≫= λ msg : ptr,
            store errorStr (O_charp (c_str msg))
            ≫= λ _ : (), delete db ≫= λ _ : (), mret NULL) s1
  with
  | Ret a s2 =>
      match destroy_exception (S (fresh s)) s2 with
      | Ret _ s3 => Ret a s3
      | _ => Undef
      end
  | r => r
  end
  = Ret NULL
      (set_cell (S (fresh s)) None
         (set_cell (fresh s) None
            (set_cell db None
               (set_cell errorStr (Some (O_charp (fresh s))) s1)))).
Proof.
  intros He Hd Hne s1.
  assert (Hm : cell (fresh s) s1 = Some (O_string (get_msg err))).
  { unfold s1. eapply cell_alloc_old. apply cell_alloc_fresh. }
  assert (Hx : cell (S (fresh s)) s1 = Some (O_Error (get_type err) (fresh s))).
  { unfold s1. rewrite <- (fresh_alloc (O_string (get_msg err)) s).
    apply cell_alloc_fresh. }
  assert (He1 : cell errorStr s1 = Some (O_charp old)).
  { unfold s1. do 2 eapply cell_alloc_old. eassumption. }
  assert (Hd1 : cell db s1 = Some o).
  { unfold s1. do 2 eapply cell_alloc_old. eassumption. }
  assert (Hn1 : errorStr <> fresh s) by (eapply live_not_fresh; eassumption).
  assert (Hn2 : db <> fresh s) by (eapply live_not_fresh; eassumption).
  assert (Hn3 : errorStr <> S (fresh s)).
  { intros ->. pose proof (cell_live_lt _ _ _ He) as (i & Hi & Hlt).
    unfold fresh in Hi. lia. }
  assert (Hn4 : db <> S (fresh s)).
  { intros ->. pose proof (cell_live_lt _ _ _ Hd) as (i & Hi & Hlt).
    unfold fresh in Hi. lia. }
  unfold Error_get_msg, c_str.
  rewrite !run_bind, (run_load _ _ _ Hx). cbv beta iota.
  unfold mret at 1, M_ret at 1.
  rewrite run_bind, (run_store _ _ _ _ He1). cbv beta iota.
  rewrite run_bind.
  erewrite run_delete by (rewrite cell_set_ne by assumption; eassumption).
  cbv beta iota. unfold mret, M_ret, destroy_exception.
  rewrite run_bind.
  erewrite run_load
    by (rewrite !cell_set_ne by (assumption || congruence); eassumption).
  cbv beta iota. rewrite run_bind.
  erewrite run_delete
    by (rewrite !cell_set_ne by (assumption || congruence); eassumption).
  cbv beta iota.
  erewrite run_delete.
  - reflexivity.
  - rewrite cell_set_ne by lia.
    rewrite !cell_set_ne by (assumption || congruence). eassumption.
Qed.

(** The handle struct is overwritten or deleted before an open returns, so
    the state it leaves does not depend on what the struct first held. *)
Lemma insert_over_blank (m rest : list (option object)) (b c : option object) :
  <[length m := c]> ((m ++ [b]) ++ rest)%list = ((m ++ [c]) ++ rest)%list.
Proof.
  rewrite insert_app_l by (rewrite length_app; simpl; lia).
  f_equal. rewrite insert_app_r_alt by lia.
  rewrite Nat.sub_diag. reflexivity.
Qed.

Lemma after_open_blank blank writable w d s :
  set_cell (fresh s) (Some (O_xapian_database_t (S (fresh s))))
    (alloc (O_Database writable d) (with_env w (alloc blank s)))
  = after_open writable w d s.
Proof.
  unfold after_open, alloc, with_env, fresh, set_cell. simpl.
  f_equal. rewrite !insert_over_blank. reflexivity.
Qed.

Lemma after_catch_blank blank w err errorStr old s :
  cell errorStr s = Some (O_charp old) ->
  set_cell (S (S (fresh s))) None
    (set_cell (S (fresh s)) None
       (set_cell (fresh s) None
          (set_cell errorStr (Some (O_charp (S (fresh s))))
             (alloc (O_Error (get_type err) (S (fresh s)))
                (alloc (O_string (get_msg err))
                   (with_env w (alloc blank s)))))))
  = after_catch w err errorStr s.
Proof.
  intros He. destruct (cell_live_lt _ _ _ He) as (i & -> & Hi).
  unfold after_catch, at_catch, alloc, with_env, fresh, set_cell. simpl.
  f_equal. f_equal. f_equal.
  rewrite !(list_insert_insert_ne _ (length (mem s)) i) by lia.
  f_equal.
  rewrite <- !(app_assoc (mem s ++ [_])).
  rewrite !insert_over_blank. reflexivity.
Qed.

Lemma writable_db_new_fails cFilename path options errorStr old s w err :
  C_string_at cFilename path s ->
  cell errorStr s = Some (O_charp old) ->
  WritableDatabase_ctor path options (env s) = (w, inl err) ->
  xapian_writable_db_new cFilename options errorStr s
  = Ret NULL (after_catch w err errorStr s).
Proof.
  intros Hf He Hc. unfold xapian_writable_db_new.
  rewrite run_bind. unfold new at 1. unfold try_catch.
  rewrite run_bind.
  rewrite (run_std_string _ _ _ (C_string_at_alloc _ _ _ _ Hf)).
  rewrite run_bind.
  erewrite run_call_world_throw by (simpl; eassumption).
  rewrite run_throw.
  erewrite run_handler.
  - rewrite fresh_with_env, fresh_alloc. reflexivity.
  - rewrite cell_with_env. eapply cell_alloc_old. eassumption.
  - rewrite cell_with_env. apply cell_alloc_fresh.
  - eapply live_not_fresh. eassumption.
Qed.

Lemma database_new_fails cFilename path errorStr old s w err :
  C_string_at cFilename path s ->
  cell errorStr s = Some (O_charp old) ->
  Database_ctor path (env s) = (w, inl err) ->
  xapian_database_new cFilename errorStr s
  = Ret NULL (after_catch w err errorStr s).
Proof.
  intros Hf He Hc. unfold xapian_database_new.
  rewrite run_bind. unfold new at 1. unfold try_catch.
  rewrite run_bind.
  rewrite (run_std_string _ _ _ (C_string_at_alloc _ _ _ _ Hf)).
  rewrite run_bind.
  erewrite run_call_world_throw by (simpl; eassumption).
  rewrite run_throw.
  erewrite run_handler.
  - rewrite fresh_with_env, fresh_alloc.
    erewrite after_catch_blank by eassumption. reflexivity.
  - rewrite cell_with_env. eapply cell_alloc_old. eassumption.
  - rewrite cell_with_env. apply cell_alloc_fresh.
  - eapply live_not_fresh. eassumption.
Qed.

(** The state a successful open leaves. *)
Lemma writable_db_new_succeeds cFilename path options errorStr s w d :
  C_string_at cFilename path s ->
  WritableDatabase_ctor path options (env s) = (w, inr d) ->
  xapian_writable_db_new cFilename options errorStr s
  = Ret (fresh s) (after_open true w d s).
Proof.
  intros Hf Hc. unfold xapian_writable_db_new.
  rewrite run_bind. unfold new at 1. unfold try_catch.
  rewrite run_bind.
  rewrite (run_std_string _ _ _ (C_string_at_alloc _ _ _ _ Hf)).
  rewrite run_bind.
  erewrite run_call_world_ret by (simpl; eassumption).
  rewrite run_bind. unfold new.
  rewrite run_bind.
  erewrite run_store.
  - rewrite fresh_with_env, fresh_alloc. reflexivity.
  - eapply cell_alloc_old. rewrite cell_with_env. apply cell_alloc_fresh.
Qed.

Lemma database_new_succeeds cFilename path errorStr s w d :
  C_string_at cFilename path s ->
  Database_ctor path (env s) = (w, inr d) ->
  xapian_database_new cFilename errorStr s
  = Ret (fresh s) (after_open false w d s).
Proof.
  intros Hf Hc. unfold xapian_database_new.
  rewrite run_bind. unfold new at 1. unfold try_catch.
  rewrite run_bind.
  rewrite (run_std_string _ _ _ (C_string_at_alloc _ _ _ _ Hf)).
  rewrite run_bind.
  erewrite run_call_world_ret by (simpl; eassumption).
  rewrite run_bind. unfold new.
  rewrite run_bind.
  erewrite run_store.
  - rewrite fresh_with_env, fresh_alloc, after_open_blank. reflexivity.
  - eapply cell_alloc_old. rewrite cell_with_env. apply cell_alloc_fresh.
Qed.

(** *** The other functions, run on well-formed arguments *)

Lemma run_get_xapian_database h p s :
  cell h s = Some (O_xapian_database_t p) -> get_xapian_database h s = Ret p s.
Proof. intros H. unfold get_xapian_database. rewrite run_bind, (run_load _ _ _ H). reflexivity. Qed.

Lemma run_get_xapian_document h p s :
  cell h s = Some (O_xapian_document_t p) -> get_xapian_document h s = Ret p s.
Proof. intros H. unfold get_xapian_document. rewrite run_bind, (run_load _ _ _ H). reflexivity. Qed.

Lemma run_get_xapian_query h p s :
  cell h s = Some (O_xapian_query_t p) -> get_xapian_query h s = Ret p s.
Proof. intros H. unfold get_xapian_query. rewrite run_bind, (run_load _ _ _ H). reflexivity. Qed.

Lemma run_deref_Database p b d s :
  cell p s = Some (O_Database b d) -> deref_Database p s = Ret d s.
Proof. intros H. unfold deref_Database. rewrite run_bind, (run_load _ _ _ H). reflexivity. Qed.

Lemma run_deref_WritableDatabase p d s :
  cell p s = Some (O_Database true d) -> deref_WritableDatabase p s = Ret d s.
Proof. intros H. unfold deref_WritableDatabase. rewrite run_bind, (run_load _ _ _ H). reflexivity. Qed.

Lemma run_deref_Document p d s :
  cell p s = Some (O_Document d) -> deref_Document p s = Ret d s.
Proof. intros H. unfold deref_Document. rewrite run_bind, (run_load _ _ _ H). reflexivity. Qed.

Lemma run_deref_Query p q s :
  cell p s = Some (O_Query q) -> deref_Query p s = Ret q s.
Proof. intros H. unfold deref_Query. rewrite run_bind, (run_load _ _ _ H). reflexivity. Qed.

Lemma run_document_new s :
  xapian_document_new s
  = Ret (fresh s) (after_new O_indeterminate
                     (O_xapian_document_t (S (fresh s))) (O_Document Document_new) s).
Proof.
  unfold xapian_document_new, after_new, new. rewrite !run_bind.
  erewrite run_store by (eapply cell_alloc_old; apply cell_alloc_fresh).
  rewrite fresh_alloc. reflexivity.
Qed.

Lemma run_query_new term text s :
  C_string_at term text s ->
  xapian_query_new term s
  = Ret (fresh s) (after_new O_indeterminate
                     (O_xapian_query_t (S (fresh s))) (O_Query (TermLeaf text)) s).
Proof.
  intros Ht. unfold xapian_query_new, after_new, new. rewrite run_bind.
  rewrite run_bind, (run_std_string _ _ _ (C_string_at_alloc _ _ _ _ Ht)).
  rewrite !run_bind.
  erewrite run_store by (eapply cell_alloc_old; apply cell_alloc_fresh).
  rewrite fresh_alloc. reflexivity.
Qed.

Lemma run_enquire_new database p b d s :
  database_handle database p b d s ->
  xapian_enquire_new database s
  = match Enquire_ctor d with
    | inr e => Ret (fresh s) (after_new O_indeterminate
                                (O_xapian_enquire_t (S (fresh s))) (O_Enquire e) s)
    | inl err => throw err (alloc O_indeterminate s)
    end.
Proof.
  intros [Hh Hp]. unfold xapian_enquire_new, after_new, new. rewrite run_bind.
  rewrite run_bind, (run_get_xapian_database _ p) by (eapply cell_alloc_old; eassumption).
  rewrite run_bind, (run_deref_Database _ b d) by (eapply cell_alloc_old; eassumption).
  rewrite run_bind. destruct (Enquire_ctor d) as [err|e]; simpl.
  - reflexivity.
  - rewrite !run_bind.
    erewrite run_store by (eapply cell_alloc_old; apply cell_alloc_fresh).
    rewrite fresh_alloc. reflexivity.
Qed.

Lemma run_query_combine op qa pa a qb pb b s :
  query_handle qa pa a s ->
  query_handle qb pb b s ->
  xapian_query_combine op qa qb s
  = match Query_ctor op a b with
    | inr q => Ret (fresh s) (after_new O_indeterminate
                                (O_xapian_query_t (S (fresh s))) (O_Query q) s)
    | inl err => throw err (alloc O_indeterminate s)
    end.
Proof.
  intros [Ha Hpa] [Hb Hpb]. unfold xapian_query_combine, after_new, new.
  rewrite run_bind.
  rewrite run_bind, (run_get_xapian_query _ pa) by (eapply cell_alloc_old; eassumption).
  rewrite run_bind, (run_deref_Query _ a) by (eapply cell_alloc_old; eassumption).
  rewrite run_bind, (run_get_xapian_query _ pb) by (eapply cell_alloc_old; eassumption).
  rewrite run_bind, (run_deref_Query _ b) by (eapply cell_alloc_old; eassumption).
  rewrite run_bind. destruct (Query_ctor op a b) as [err|q]; simpl.
  - reflexivity.
  - rewrite !run_bind.
    erewrite run_store by (eapply cell_alloc_old; apply cell_alloc_fresh).
    rewrite fresh_alloc. reflexivity.
Qed.

Lemma run_document_set_data doc p d data text s :
  document_handle doc p d s ->
  C_string_at data text s ->
  xapian_document_set_data doc data s
  = Ret tt (set_cell p (Some (O_Document (Document_set_data text d))) s).
Proof.
  intros [Hh Hp] Ht. unfold xapian_document_set_data.
  rewrite run_bind, (run_get_xapian_document _ p) by assumption.
  rewrite run_bind, (run_deref_Document _ d) by assumption.
  rewrite run_bind, (run_std_string _ _ _ Ht).
  erewrite run_store by eassumption. reflexivity.
Qed.

Lemma run_document_add_posting doc p d posting text pos s :
  document_handle doc p d s ->
  C_string_at posting text s ->
  xapian_document_add_posting doc posting pos s
  = Ret tt (set_cell p (Some (O_Document
              (Document_add_posting text (termpos_of_int pos) d))) s).
Proof.
  intros [Hh Hp] Ht. unfold xapian_document_add_posting.
  rewrite run_bind, (run_get_xapian_document _ p) by assumption.
  rewrite run_bind, (run_deref_Document _ d) by assumption.
  rewrite run_bind, (run_std_string _ _ _ Ht).
  erewrite run_store by eassumption. reflexivity.
Qed.

Lemma run_writable_db_add_document database p wdb document q doc s :
  database_handle database p true wdb s ->
  document_handle document q doc s ->
  xapian_writable_db_add_document database document s
  = match add_document doc wdb with
    | inr r => Ret tt (set_cell p (Some (O_Database true r.2)) s)
    | inl err => throw err s
    end.
Proof.
  intros [Hh Hp] [Hd Hq]. unfold xapian_writable_db_add_document.
  rewrite run_bind, (run_get_xapian_database _ p) by assumption.
  rewrite run_bind, (run_deref_WritableDatabase _ wdb) by assumption.
  rewrite run_bind, (run_get_xapian_document _ q) by assumption.
  rewrite run_bind, (run_deref_Document _ doc) by assumption.
  rewrite run_bind. destruct (add_document doc wdb) as [err|r]; simpl.
  - reflexivity.
  - erewrite run_store by eassumption. reflexivity.
Qed.

Lemma run_query_describe query p q s :
  query_handle query p q s ->
  xapian_query_describe query s
  = Ret (fresh s) (set_cell (fresh s) None (alloc (O_string (get_description q)) s)).
Proof.
  intros [Hh Hp]. unfold xapian_query_describe, Query_get_description, c_str.
  rewrite run_bind, (run_get_xapian_query _ p) by assumption.
  rewrite !run_bind, (run_deref_Query _ q) by assumption.
  unfold new. cbv beta iota zeta. rewrite run_bind.
  erewrite run_delete by apply cell_alloc_fresh. reflexivity.
Qed.

Lemma description_handle query p q s :
  query_handle query p q s -> description query s = Some (get_description q).
Proof.
  intros [Hh Hp]. unfold description, Query_get_description.
  rewrite run_bind, (run_get_xapian_query _ p) by assumption.
  rewrite !run_bind, (run_deref_Query _ q) by assumption.
  unfold new. rewrite cell_alloc_fresh. reflexivity.
Qed.

(** *** What the resulting states hold *)

Lemma preserved_alloc o s : preserved s (alloc o s).
Proof. intros p o' H. eapply cell_alloc_old; eassumption. Qed.

Lemma preserved_with_env w s : preserved s (with_env w s).
Proof. intros p o H. rewrite cell_with_env. assumption. Qed.

Lemma preserved_trans s1 s2 s3 : preserved s1 s2 -> preserved s2 s3 -> preserved s1 s3.
Proof. intros H12 H23 p o H. apply H23, H12, H. Qed.

Lemma preserved_after_new blank handle o s :
  preserved s (after_new blank handle o s).
Proof.
  intros p o' H. unfold after_new.
  rewrite cell_set_ne by (apply not_eq_sym; eapply live_not_fresh; eassumption).
  do 2 eapply cell_alloc_old. assumption.
Qed.

Lemma after_new_handle blank handle o s :
  cell (fresh s) (after_new blank handle o s) = Some handle.
Proof.
  unfold after_new. eapply cell_set_eq.
  eapply cell_alloc_old. apply cell_alloc_fresh.
Qed.

Lemma after_new_object blank handle o s :
  cell (S (fresh s)) (after_new blank handle o s) = Some o.
Proof.
  unfold after_new. rewrite cell_set_ne by (unfold fresh; lia).
  rewrite <- (fresh_alloc blank s). apply cell_alloc_fresh.
Qed.

Lemma cell_successor_fresh s : cell (S (fresh s)) s = None.
Proof. apply cell_beyond. unfold fresh. lia. Qed.

Lemma after_open_handle writable w d s :
  database_handle (fresh s) (S (fresh s)) writable d (after_open writable w d s).
Proof.
  unfold after_open, database_handle. split.
  - eapply cell_set_eq. eapply cell_alloc_old.
    rewrite cell_with_env. apply cell_alloc_fresh.
  - rewrite cell_set_ne by (unfold fresh; lia).
    rewrite <- (fresh_alloc (O_xapian_database_t NULL) s).
    rewrite <- (fresh_with_env w). apply cell_alloc_fresh.
Qed.

Lemma preserved_after_open writable w d s :
  preserved s (after_open writable w d s).
Proof.
  intros p o H. unfold after_open.
  rewrite cell_set_ne by (apply not_eq_sym; eapply live_not_fresh; eassumption).
  eapply cell_alloc_old. rewrite cell_with_env.
  eapply cell_alloc_old. assumption.
Qed.

Lemma env_after_open writable w d s : env (after_open writable w d s) = w.
Proof. unfold after_open. rewrite env_set_cell. reflexivity. Qed.

Lemma env_after_catch w err errorStr s : env (after_catch w err errorStr s) = w.
Proof. unfold after_catch. rewrite !env_set_cell. reflexivity. Qed.


Lemma at_catch_message w err s :
  cell (S (fresh s)) (at_catch w err s) = Some (O_string (get_msg err)).
Proof.
  unfold at_catch. eapply cell_alloc_old.
  rewrite <- (fresh_alloc (O_xapian_database_t NULL) s).
  rewrite <- (fresh_with_env w). apply cell_alloc_fresh.
Qed.

Lemma at_catch_exception w err s :
  cell (S (S (fresh s))) (at_catch w err s)
  = Some (O_Error (get_type err) (S (fresh s))).
Proof.
  unfold at_catch.
  rewrite <- (fresh_alloc (O_xapian_database_t NULL) s) at 1.
  rewrite <- (fresh_with_env w) at 1.
  rewrite <- (fresh_alloc (O_string (get_msg err))).
  apply cell_alloc_fresh.
Qed.

Lemma after_catch_errorStr w err errorStr old s :
  cell errorStr s = Some (O_charp old) ->
  cell errorStr (after_catch w err errorStr s) = Some (O_charp (S (fresh s))).
Proof.
  intros H. destruct (cell_live_lt _ _ _ H) as (i & Hi & Hlt).
  unfold after_catch.
  rewrite !cell_set_ne by (unfold fresh; lia).
  eapply cell_set_eq. unfold at_catch.
  do 2 eapply cell_alloc_old. rewrite cell_with_env.
  eapply cell_alloc_old. eassumption.
Qed.



(** *** Claims about opening a database *)

(** C1.  For every path, [xapian_writable_db_new] and [xapian_database_new]
    either return a non-NULL handle (when the library constructor succeeds),
    and then leave the caller's error variable untouched, or (when the
    constructor throws) store the address of the error message through
    [errorStr] and return NULL.  A handle and an error never come together. *)
Theorem C1_open_returns_handle_or_error
    (cFilename : ptr) (path : string) (options : Z) (errorStr old : ptr) (s : state) :
  C_string_at cFilename path s ->
  cell errorStr s = Some (O_charp old) ->
  open_result true (WritableDatabase_ctor path options (env s)) errorStr old s
    (xapian_writable_db_new cFilename options errorStr s)
  /\
  open_result false (Database_ctor path (env s)) errorStr old s
    (xapian_database_new cFilename errorStr s).
Proof.
  intros Hf He. split.
  - destruct (WritableDatabase_ctor path options (env s)) as [w [err|d]] eqn:Hc; simpl.
    + exists (S (fresh s)), (after_catch w err errorStr s).
      split; [eapply writable_db_new_fails; eassumption|].
      split; [apply env_after_catch|].
      split; [eapply after_catch_errorStr; eassumption|].
      split; [discriminate | apply at_catch_message].
    + exists (fresh s), (S (fresh s)), (after_open true w d s).
      split; [eapply writable_db_new_succeeds; eassumption|].
      split; [discriminate|].
      split; [apply after_open_handle|].
      split; [apply env_after_open | apply preserved_after_open, He].
  - destruct (Database_ctor path (env s)) as [w [err|d]] eqn:Hc; simpl.
    + exists (S (fresh s)), (after_catch w err errorStr s).
      split; [eapply database_new_fails; eassumption|].
      split; [apply env_after_catch|].
      split; [eapply after_catch_errorStr; eassumption|].
      split; [discriminate | apply at_catch_message].
    + exists (fresh s), (S (fresh s)), (after_open false w d s).
      split; [eapply database_new_succeeds; eassumption|].
      split; [discriminate|].
      split; [apply after_open_handle|].
      split; [apply env_after_open | apply preserved_after_open, He].
Qed.


(** *** Claims about queries *)

Lemma run_throw_cells {A} (err : Error) (s : state) :
  exists e msg s',
    @throw X A err s = Throw e s' /\
    cell e s' = Some (O_Error (get_type err) msg) /\
    cell msg s' = Some (O_string (get_msg err)) /\
    preserved s s'.
Proof.
  exists (S (fresh s)), (fresh s),
    (alloc (O_Error (get_type err) (fresh s)) (alloc (O_string (get_msg err)) s)).
  split; [apply run_throw|].
  split; [rewrite <- (fresh_alloc (O_string (get_msg err)) s); apply cell_alloc_fresh|].
  split; [eapply cell_alloc_old; apply cell_alloc_fresh|].
  eapply preserved_trans; apply preserved_alloc.
Qed.

(** C3.  [xapian_query_describe] builds the description of the query, the
    same text for every handle of an equal query, but the pointer it returns
    addresses a temporary string that is already destroyed when the call
    returns: the caller is handed a dangling pointer, not the text. *)
Theorem C3_describe_returns_dangling_pointer
    (query p : ptr) (q : Query) (s : state) :
  query_handle query p q s ->
  description query s = Some (get_description q) /\
  exists r s',
    xapian_query_describe query s = Ret r s' /\
    cell r (alloc (O_string (get_description q)) s)
      = Some (O_string (get_description q)) /\
    dangling r s' /\
    load r s' = Undef.
Proof.
  intros Hq. split; [eapply description_handle; eassumption|].
  exists (fresh s), (set_cell (fresh s) None (alloc (O_string (get_description q)) s)).
  split; [eapply run_query_describe; eassumption|].
  split; [apply cell_alloc_fresh|].
  assert (Hgone : cell (fresh s)
            (set_cell (fresh s) None (alloc (O_string (get_description q)) s)) = None).
  { eapply cell_set_eq. apply cell_alloc_fresh. }
  split; [split; [discriminate | exact Hgone]|].
  unfold load. rewrite Hgone. reflexivity.
Qed.

(** [xapian_query_combine] has no check of its own: what it does with an
    operator code is what the library constructor does with it. *)
Lemma query_combine_follows_constructor
    (op : Z) (qa pa : ptr) (a : Query) (qb pb : ptr) (b : Query) (s : state) :
  query_handle qa pa a s ->
  query_handle qb pb b s ->
  match Query_ctor op a b with
  | inr q =>
      exists h p s',
        xapian_query_combine op qa qb s = Ret h s' /\ h <> NULL /\
        query_handle h p q s'
  | inl err =>
      exists e msg s',
        xapian_query_combine op qa qb s = Throw e s' /\
        cell e s' = Some (O_Error (get_type err) msg) /\
        cell msg s' = Some (O_string (get_msg err))
  end.
Proof.
  intros Ha Hb. rewrite (run_query_combine op _ _ _ _ _ _ _ Ha Hb).
  destruct (Query_ctor op a b) as [err|q].
  - destruct (@run_throw_cells ptr err (alloc O_indeterminate s))
      as (e & msg & s' & Ht & He & Hm & _).
    exists e, msg, s'. auto.
  - eexists _, _, _. split; [reflexivity|]. split; [discriminate|].
    split; [apply after_new_handle | apply after_new_object].
Qed.

(** C7.  [xapian_query_combine] leaves its operands as they were: whether
    the library constructor returns a query (then the call returns a handle
    of a node at addresses that were not in use) or throws, every object
    that existed before the call is unchanged, and the descriptions of [qa]
    and [qb] before and after the call are equal. *)
Theorem C7_combine_leaves_operands_unchanged
    (op : Z) (qa pa : ptr) (a : Query) (qb pb : ptr) (b : Query) (s : state) :
  query_handle qa pa a s ->
  query_handle qb pb b s ->
  exists s',
    ((exists h p q,
        xapian_query_combine op qa qb s = Ret h s' /\
        Query_ctor op a b = inr q /\
        cell h s = None /\ cell p s = None /\ query_handle h p q s')
     \/
     (exists e err,
        xapian_query_combine op qa qb s = Throw e s' /\
        Query_ctor op a b = inl err)) /\
    preserved s s' /\
    query_handle qa pa a s' /\ query_handle qb pb b s' /\
    description qa s' = description qa s /\
    description qb s' = description qb s.
Proof.
  intros Ha Hb.
  assert (Hframe : forall s', preserved s s' ->
            preserved s s' /\
            query_handle qa pa a s' /\ query_handle qb pb b s' /\
            description qa s' = description qa s /\
            description qb s' = description qb s).
  { intros s' Hp.
    assert (Ha' : query_handle qa pa a s') by (destruct Ha; split; auto).
    assert (Hb' : query_handle qb pb b s') by (destruct Hb; split; auto).
    repeat split; try apply Ha'; try apply Hb'; try assumption.
    - rewrite (description_handle _ _ _ _ Ha), (description_handle _ _ _ _ Ha').
      reflexivity.
    - rewrite (description_handle _ _ _ _ Hb), (description_handle _ _ _ _ Hb').
      reflexivity. }
  rewrite (run_query_combine op _ _ _ _ _ _ _ Ha Hb).
  destruct (Query_ctor op a b) as [err|q].
  - destruct (@run_throw_cells ptr err (alloc O_indeterminate s))
      as (e & msg & s' & Ht & He & Hm & Hp).
    exists s'. split.
    + right. exists e, err. auto.
    + apply Hframe. eapply preserved_trans; [apply preserved_alloc | exact Hp].
  - eexists. split.
    + left. eexists _, _, q. split; [reflexivity|]. split; [reflexivity|].
      split; [apply cell_fresh|]. split; [apply cell_successor_fresh|].
      split; [apply after_new_handle | apply after_new_object].
    + apply Hframe. apply preserved_after_new.
Qed.

(** *** Claims about documents *)

Lemma string_of_chars_as_C_string (b : string) :
  string_of_chars (as_C_string b) = Some (until_NUL b).
Proof.
  unfold as_C_string. induction b as [|c b IH]; simpl.
  - reflexivity.
  - destruct (Ascii.eqb c NUL); [reflexivity|]. rewrite IH. reflexivity.
Qed.

Lemma until_NUL_free (b : string) : NUL_free b = true -> until_NUL b = b.
Proof.
  induction b as [|c b IH]; simpl; [reflexivity|].
  destruct (Ascii.eqb c NUL); simpl; [discriminate|].
  intros H. rewrite IH; [reflexivity | assumption].
Qed.

Lemma handle_object_distinct (h p : ptr) (d : Document) (s : state) :
  document_handle h p d s -> p <> h.
Proof. intros [Hh Hp] ->. rewrite Hh in Hp. discriminate. Qed.

(** C5 (amended).  [xapian_writable_db_add_document] hands the document to
    the library's [add_document], which assigns the id and updates the
    database object; the call itself returns nothing (its type is [void]),
    so the id does not reach the caller. *)
Theorem C5_add_document_returns_nothing
    (database p : ptr) (wdb : Database) (document q : ptr) (doc : Document)
    (s : state) (id : Z) (wdb' : Database) :
  database_handle database p true wdb s ->
  document_handle document q doc s ->
  add_document doc wdb = inr (id, wdb') ->
  exists s',
    xapian_writable_db_add_document database document s = Ret tt s' /\
    cell p s' = Some (O_Database true wdb') /\
    env s' = env s /\
    forall r, r <> p -> cell r s' = cell r s.
Proof.
  intros Hd Hdoc Hadd.
  rewrite (run_writable_db_add_document _ _ _ _ _ _ _ Hd Hdoc), Hadd.
  eexists. split; [reflexivity|]. simpl.
  split; [eapply cell_set_eq; apply Hd|].
  split; [apply env_set_cell|].
  intros r Hr. apply cell_set_ne. congruence.
Qed.

(** C6 (amended).  [xapian_document_set_data] receives the data as a C
    string: the document stores the bytes that precede the first NUL byte of
    what the caller supplied, which is all of it exactly when it holds no
    NUL byte. *)
Theorem C6_set_data_stores_bytes_before_NUL
    (doc p : ptr) (d : Document) (data : ptr) (bytes : string) (s : state) :
  document_handle doc p d s ->
  cell data s = Some (O_chars (as_C_string bytes)) ->
  exists s',
    xapian_document_set_data doc data s = Ret tt s' /\
    document_handle doc p (mkDocument (until_NUL bytes) (doc_postings d)) s' /\
    (NUL_free bytes = true -> until_NUL bytes = bytes).
Proof.
  intros Hd Hdata.
  assert (Ht : C_string_at data (until_NUL bytes) s).
  { eexists. split; [eassumption | apply string_of_chars_as_C_string]. }
  rewrite (run_document_set_data _ _ _ _ _ _ Hd Ht).
  eexists. split; [reflexivity|]. split; [|apply until_NUL_free].
  pose proof (handle_object_distinct _ _ _ _ Hd) as Hne.
  destruct Hd as [Hh Hp]. split.
  - rewrite cell_set_ne by assumption. assumption.
  - eapply cell_set_eq. eassumption.
Qed.

Lemma termpos_of_int_unsigned (pos : Z) :
  int_range pos ->
  (0 <= termpos_of_int pos < 2 ^ 32)%Z /\
  termpos_of_int pos = (if (pos <? 0)%Z then pos + 2 ^ 32 else pos)%Z.
Proof.
  unfold int_range, termpos_of_int. intros H. split.
  - apply Z.mod_pos_bound. lia.
  - destruct (Z.ltb_spec pos 0).
    + symmetry. apply (Z.mod_unique pos (2 ^ 32) (-1) (pos + 2 ^ 32)); lia.
    + apply Z.mod_small. lia.
Qed.

(** C8.  The position [xapian_document_add_posting] records for a term is
    the [int] argument converted to the library's unsigned position type: a
    value between 0 and 2^32 - 1, equal to [pos] when [pos] is not negative
    and to [pos + 2^32] when it is. *)
Theorem C8_posting_position_is_unsigned
    (doc p : ptr) (d : Document) (posting : ptr) (text : string) (pos : Z)
    (s : state) :
  document_handle doc p d s ->
  C_string_at posting text s ->
  int_range pos ->
  exists s' d',
    xapian_document_add_posting doc posting pos s = Ret tt s' /\
    document_handle doc p d' s' /\
    doc_postings d' = (doc_postings d ++ [(text, termpos_of_int pos)])%list /\
    doc_data d' = doc_data d /\
    (0 <= termpos_of_int pos < 2 ^ 32)%Z /\
    termpos_of_int pos = (if (pos <? 0)%Z then pos + 2 ^ 32 else pos)%Z.
Proof.
  intros Hd Ht Hr.
  rewrite (run_document_add_posting _ _ _ _ _ _ _ Hd Ht).
  eexists _, (Document_add_posting text (termpos_of_int pos) d).
  split; [reflexivity|].
  pose proof (handle_object_distinct _ _ _ _ Hd) as Hne.
  destruct Hd as [Hh Hp]. split.
  { split.
    - rewrite cell_set_ne by assumption. assumption.
    - eapply cell_set_eq. eassumption. }
  split; [reflexivity|]. split; [reflexivity|].
  apply termpos_of_int_unsigned. assumption.
Qed.

(** *** The constructors that take no error parameter *)

Lemma returns_new_handle_after_new blank handle o s is_handle :
  is_handle (fresh s) (S (fresh s)) (after_new blank handle o s) ->
  returns_new_handle (Ret (fresh s) (after_new blank handle o s)) s is_handle.
Proof.
  intros H. exists (fresh s), (S (fresh s)), (after_new blank handle o s).
  split; [reflexivity|]. split; [discriminate|].
  split; [apply cell_fresh|]. split; [assumption|].
  split; [unfold after_new; rewrite env_set_cell; reflexivity|].
  apply preserved_after_new.
Qed.

Lemma leaves_by_exception_throw (err : Error) (blank : object) (s : state) :
  leaves_by_exception err (throw err (alloc blank s)) s.
Proof.
  destruct (@run_throw_cells ptr err (alloc blank s))
    as (e & msg & s' & Ht & He & Hm & Hp).
  exists e, msg, s'. split; [assumption|].
  split; [assumption|]. split; [assumption|].
  split.
  - rewrite run_throw in Ht. injection Ht as _ <-. reflexivity.
  - intros r o Hr. apply Hp. eapply cell_alloc_old. eassumption.
Qed.

(** C10 (amended).  [xapian_document_new] always returns a non-NULL handle of
    a document with no data and no postings, and [xapian_query_new] does so
    for every NUL-terminated term.  [xapian_query_combine] and
    [xapian_enquire_new], given live handles, do so whenever the library
    constructor returns; when it throws, the exception leaves the call
    uncaught and no handle is returned.  None of the four touches an object
    that existed before the call, so no error is written anywhere. *)
Theorem C10_constructors_return_new_handles :
  (forall s,
     returns_new_handle (xapian_document_new s) s
       (fun h p s' => document_handle h p (mkDocument EmptyString []) s'))
  /\
  (forall term text s,
     C_string_at term text s ->
     returns_new_handle (xapian_query_new term s) s
       (fun h p s' => query_handle h p (TermLeaf text) s'))
  /\
  (forall op qa pa a qb pb b s,
     query_handle qa pa a s ->
     query_handle qb pb b s ->
     match Query_ctor op a b with
     | inr q =>
         returns_new_handle (xapian_query_combine op qa qb s) s
           (fun h p s' => query_handle h p q s')
     | inl err => leaves_by_exception err (xapian_query_combine op qa qb s) s
     end)
  /\
  (forall database pd writable d s,
     database_handle database pd writable d s ->
     match Enquire_ctor d with
     | inr e =>
         returns_new_handle (xapian_enquire_new database s) s
           (fun h p s' => enquire_handle h p e s')
     | inl err => leaves_by_exception err (xapian_enquire_new database s) s
     end).
Proof.
  split; [|split; [|split]].
  - intros s. rewrite run_document_new.
    apply returns_new_handle_after_new.
    split; [apply after_new_handle | apply after_new_object].
  - intros term text s Ht. rewrite (run_query_new _ _ _ Ht).
    apply returns_new_handle_after_new.
    split; [apply after_new_handle | apply after_new_object].
  - intros op qa pa a qb pb b s Ha Hb.
    rewrite (run_query_combine op _ _ _ _ _ _ _ Ha Hb).
    destruct (Query_ctor op a b) as [err|q].
    + apply leaves_by_exception_throw.
    + apply returns_new_handle_after_new.
      split; [apply after_new_handle | apply after_new_object].
  - intros database pd writable d s Hd.
    rewrite (run_enquire_new _ _ _ _ _ Hd).
    destruct (Enquire_ctor d) as [err|e].
    + apply leaves_by_exception_throw.
    + apply returns_new_handle_after_new.
      split; [apply after_new_handle | apply after_new_object].
Qed.

(** What an allocation and a [throw] add to the memory. *)
Lemma cell_alloc_inv (p : ptr) (o o' : object) (s : state) :
  cell p (alloc o s) = Some o' -> o' = o \/ cell p s = Some o'.
Proof.
  destruct p as [|i]; simpl; [discriminate|].
  destruct (decide (i < length (mem s))) as [Hlt|Hge].
  - rewrite lookup_app_l by assumption. auto.
  - destruct (decide (i = length (mem s))) as [->|Hne].
    + rewrite list_lookup_middle by reflexivity. simpl.
      intros H. injection H as <-. auto.
    + rewrite lookup_ge_None_2; [discriminate|].
      rewrite length_app. simpl. lia.
Qed.

Lemma throw_adds_only_exception (err : Error) (blank : object) (s : state)
    (e : ptr) (s' : state) :
  @throw X ptr err (alloc blank s) = Throw e s' ->
  forall p o, cell p s' = Some o ->
    cell p s = Some o \/ o = blank \/
    o = O_string (get_msg err) \/ exists m, o = O_Error (get_type err) m.
Proof.
  rewrite run_throw. intros H. injection H as _ <-. intros p o Hp.
  apply cell_alloc_inv in Hp as [->|Hp]; [eauto|].
  apply cell_alloc_inv in Hp as [->|Hp]; [eauto|].
  apply cell_alloc_inv in Hp as [->|Hp]; eauto.
Qed.

End Properties.

(** ** Claims settled on the library of the specification *)

Lemma ref_rejects_unrecognised (op : Z) (a b : Query) :
  ~ @recognised_op Ref.strict op ->
  @Query_ctor Ref.strict op a b
  = inl (XapianError "InvalidOperatorError" "unrecognised operator code").
Proof.
  intros Hop. simpl. unfold Ref.combine.
  rewrite bool_decide_eq_false_2; [reflexivity | exact Hop].
Qed.

(** C4.  For every operator code that is no operator of the library,
    [xapian_query_combine] fails with InvalidOperatorError: the error the
    library constructor throws leaves the call, no handle is returned and no
    query node is built. *)
Theorem C4_unrecognised_operator_fails
    (op : Z) (qa pa : ptr) (a : Query) (qb pb : ptr) (b : Query)
    (s : @state Ref.strict) :
  query_handle qa pa a s ->
  query_handle qb pb b s ->
  ~ @recognised_op Ref.strict op ->
  exists e msg s',
    xapian_query_combine op qa qb s = Throw e s' /\
    cell e s' = Some (O_Error "InvalidOperatorError" msg) /\
    (forall p q, cell p s' = Some (O_Query q) -> cell p s = Some (O_Query q)) /\
    (forall h p, cell h s' = Some (O_xapian_query_t p) ->
                 cell h s = Some (O_xapian_query_t p)).
Proof.
  intros Ha Hb Hop.
  rewrite (run_query_combine op _ _ _ _ _ _ _ Ha Hb).
  rewrite (ref_rejects_unrecognised op a b Hop).
  destruct (@run_throw_cells Ref.strict ptr
              (XapianError "InvalidOperatorError" "unrecognised operator code")
              (alloc O_indeterminate s))
    as (e & msg & s' & Ht & He & Hm & Hp).
  exists e, msg, s'. split; [exact Ht|]. split; [exact He|].
  pose proof (throw_adds_only_exception _ _ _ _ _ Ht) as Hnew.
  split.
  - intros p q Hq. destruct (Hnew _ _ Hq) as [H|[H|[H|[m H]]]];
      [exact H | discriminate H | discriminate H | discriminate H].
  - intros h p Hh. destruct (Hnew _ _ Hh) as [H|[H|[H|[m H]]]];
      [exact H | discriminate H | discriminate H | discriminate H].
Qed.






(** ** Instances of the theorems on the reference library *)

Lemma C1_open_returns_handle_or_error_witness :
  @C_string_at Ref.strict 1 "/idx" (before_open store_idle) /\
  cell 2 (before_open store_idle) = Some (O_charp NULL) /\
  @open_result Ref.strict true (Ref.open_writable "/idx" 1 store_idle) 2 NULL
    (before_open store_idle)
    (xapian_writable_db_new 1 1 2 (before_open store_idle)) /\
  @open_result Ref.strict false (Ref.open_readable "/idx" store_idle) 2 NULL
    (before_open store_idle)
    (xapian_database_new 1 2 (before_open store_idle)).
Proof.
  assert (Hf : @C_string_at Ref.strict 1 "/idx" (before_open store_idle)).
  { eexists. split; reflexivity. }
  split; [exact Hf|]. split; [reflexivity|].
  apply (@C1_open_returns_handle_or_error Ref.strict 1 "/idx" 1%Z 2 NULL
           (before_open store_idle) Hf eq_refl).
Defined.


Lemma C3_describe_returns_dangling_pointer_witness :
  xapian_query_new 1 two_terms = Ret 3 one_query_built /\
  xapian_query_new 2 one_query_built = Ret 5 two_queries_built /\
  xapian_query_combine 0 3 5 two_queries_built = Ret 7 and_query_built /\
  query_handle 7 8 (Combine 0 (TermLeaf "a") (TermLeaf "b")) and_query_built /\
  description 7 and_query_built = Some "Xapian::Query((a AND b))" /\
  exists r s',
    xapian_query_describe 7 and_query_built = Ret r s' /\
    cell r (alloc (O_string "Xapian::Query((a AND b))") and_query_built)
      = Some (O_string "Xapian::Query((a AND b))") /\
    dangling r s' /\
    load r s' = Undef.
Proof.
  split; [reflexivity|]. split; [reflexivity|]. split; [reflexivity|].
  assert (Hq : @query_handle Ref.strict 7 8
                 (Combine 0 (TermLeaf "a") (TermLeaf "b")) and_query_built).
  { split; reflexivity. }
  split; [exact Hq|].
  exact (@C3_describe_returns_dangling_pointer Ref.strict 7 8 _ _ Hq).
Defined.

Lemma C4_unrecognised_operator_fails_witness :
  query_handle 1 2 (TermLeaf "a") (two_queries Ref.strict store_idle) /\
  query_handle 3 4 (TermLeaf "b") (two_queries Ref.strict store_idle) /\
  ~ @recognised_op Ref.strict 999 /\
  exists e msg s',
    xapian_query_combine 999 1 3 (two_queries Ref.strict store_idle) = Throw e s' /\
    cell e s' = Some (O_Error "InvalidOperatorError" msg) /\
    (forall p q, cell p s' = Some (O_Query q) ->
                 cell p (two_queries Ref.strict store_idle) = Some (O_Query q)) /\
    (forall h p, cell h s' = Some (O_xapian_query_t p) ->
                 cell h (two_queries Ref.strict store_idle)
                 = Some (O_xapian_query_t p)).
Proof.
  assert (Ha : @query_handle Ref.strict 1 2 (TermLeaf "a")
                 (two_queries Ref.strict store_idle)) by (split; reflexivity).
  assert (Hb : @query_handle Ref.strict 3 4 (TermLeaf "b")
                 (two_queries Ref.strict store_idle)) by (split; reflexivity).
  assert (Hop : ~ @recognised_op Ref.strict 999).
  { intros [name Hname]. discriminate Hname. }
  split; [exact Ha|]. split; [exact Hb|]. split; [exact Hop|].
  exact (C4_unrecognised_operator_fails 999 1 2 _ 3 4 _ _ Ha Hb Hop).
Defined.

(** C5 as stated fails: two documents are added, the library assigns them
    the ids 1 and 2, and both calls hand the caller the same (empty)
    result, from which no id can be read. *)
Lemma C5_counterexample :
  exists (s1 s2 : @state Ref.strict) (db1 db2 : Ref.database),
    xapian_writable_db_add_document 1 3 writer_and_document = Ret tt s1 /\
    Ref.add (mkDocument "doc1" [("x", 1%Z); ("x", 2%Z)]) (Ref.mkDatabase "/idx" [])
      = inr (1%Z, db1) /\
    cell 2 s1 = Some (@O_Database Ref.strict true db1) /\
    xapian_writable_db_add_document 1 3 s1 = Ret tt s2 /\
    Ref.add (mkDocument "doc1" [("x", 1%Z); ("x", 2%Z)]) db1 = inr (2%Z, db2) /\
    cell 2 s2 = Some (@O_Database Ref.strict true db2) /\
    forall id_of : unit -> Z, ~ (id_of tt = 1%Z /\ id_of tt = 2%Z).
Proof.
  eexists _, _, _, _.
  split; [reflexivity|]. split; [reflexivity|]. split; [reflexivity|].
  split; [reflexivity|]. split; [reflexivity|]. split; [reflexivity|].
  intros id_of [H1 H2]. rewrite H1 in H2. discriminate H2.
Qed.

Lemma C5_add_document_returns_nothing_witness :
  @database_handle Ref.strict 1 2 true (Ref.mkDatabase "/idx" []) writer_and_document /\
  document_handle 3 4 (mkDocument "doc1" [("x", 1%Z); ("x", 2%Z)]) writer_and_document /\
  exists s',
    xapian_writable_db_add_document 1 3 writer_and_document = Ret tt s' /\
    cell 2 s'
      = Some (@O_Database Ref.strict true
                (Ref.mkDatabase "/idx" [mkDocument "doc1" [("x", 1%Z); ("x", 2%Z)]])) /\
    env s' = env writer_and_document /\
    forall r, r <> 2 -> cell r s' = cell r writer_and_document.
Proof.
  assert (Hd : @database_handle Ref.strict 1 2 true (Ref.mkDatabase "/idx" [])
                 writer_and_document) by (split; reflexivity).
  assert (Hdoc : @document_handle Ref.strict 3 4
                   (mkDocument "doc1" [("x", 1%Z); ("x", 2%Z)])
                   writer_and_document) by (split; reflexivity).
  split; [exact Hd|]. split; [exact Hdoc|].
  exact (@C5_add_document_returns_nothing Ref.strict 1 2 _ 3 4 _ _ 1%Z _
           Hd Hdoc eq_refl).
Defined.

(** C6 as stated fails: of the three bytes "a", NUL, "b" the document stores
    the first only. *)
Lemma C6_counterexample :
  exists s' d',
    xapian_document_set_data 1 3 (document_and_chars bytes_a_NUL_b) = Ret tt s' /\
    document_handle 1 2 d' s' /\
    doc_data d' = "a" /\
    doc_data d' <> bytes_a_NUL_b.
Proof.
  eexists _, _. split; [reflexivity|].
  split; [split; reflexivity|]. split; [reflexivity|]. discriminate.
Qed.

Lemma C6_set_data_stores_bytes_before_NUL_witness :
  document_handle 1 2 Document_new (document_and_chars "payload") /\
  cell 3 (document_and_chars "payload") = Some (O_chars (as_C_string "payload")) /\
  exists s',
    xapian_document_set_data 1 3 (document_and_chars "payload") = Ret tt s' /\
    document_handle 1 2 (mkDocument (until_NUL "payload") []) s' /\
    (NUL_free "payload" = true -> until_NUL "payload" = "payload").
Proof.
  assert (Hd : @document_handle Ref.strict 1 2 Document_new
                 (document_and_chars "payload")) by (split; reflexivity).
  split; [exact Hd|]. split; [reflexivity|].
  exact (@C6_set_data_stores_bytes_before_NUL Ref.strict 1 2 _ 3 "payload" _
           Hd eq_refl).
Defined.

Lemma C7_combine_leaves_operands_unchanged_witness :
  query_handle 3 4 (TermLeaf "a") two_queries_built /\
  query_handle 5 6 (TermLeaf "b") two_queries_built /\
  exists s',
    ((exists h p q,
        xapian_query_combine 0 3 5 two_queries_built = Ret h s' /\
        Ref.combine (fun op => bool_decide (is_Some (Ref.names op))) 0
          (TermLeaf "a") (TermLeaf "b") = inr q /\
        cell h two_queries_built = None /\ cell p two_queries_built = None /\
        query_handle h p q s')
     \/
     (exists e err,
        xapian_query_combine 0 3 5 two_queries_built = Throw e s' /\
        Ref.combine (fun op => bool_decide (is_Some (Ref.names op))) 0
          (TermLeaf "a") (TermLeaf "b") = inl err)) /\
    preserved two_queries_built s' /\
    query_handle 3 4 (TermLeaf "a") s' /\ query_handle 5 6 (TermLeaf "b") s' /\
    description 3 s' = description 3 two_queries_built /\
    description 5 s' = description 5 two_queries_built.
Proof.
  assert (Ha : @query_handle Ref.strict 3 4 (TermLeaf "a") two_queries_built)
    by (split; reflexivity).
  assert (Hb : @query_handle Ref.strict 5 6 (TermLeaf "b") two_queries_built)
    by (split; reflexivity).
  split; [exact Ha|]. split; [exact Hb|].
  exact (@C7_combine_leaves_operands_unchanged Ref.strict 0 3 4 _ 5 6 _ _ Ha Hb).
Defined.

Lemma C8_posting_position_is_unsigned_witness :
  document_handle 1 2 Document_new (document_and_chars "x") /\
  C_string_at 3 "x" (document_and_chars "x") /\
  int_range (-1) /\
  exists s' d',
    xapian_document_add_posting 1 3 (-1) (document_and_chars "x") = Ret tt s' /\
    document_handle 1 2 d' s' /\
    doc_postings d' = [("x", termpos_of_int (-1))] /\
    doc_data d' = "" /\
    (0 <= termpos_of_int (-1) < 2 ^ 32)%Z /\
    termpos_of_int (-1) = 4294967295%Z.
Proof.
  assert (Hd : @document_handle Ref.strict 1 2 Document_new
                 (document_and_chars "x")) by (split; reflexivity).
  assert (Ht : @C_string_at Ref.strict 3 "x" (document_and_chars "x")).
  { eexists. split; reflexivity. }
  assert (Hr : int_range (-1)) by (unfold int_range; lia).
  split; [exact Hd|]. split; [exact Ht|]. split; [exact Hr|].
  exact (@C8_posting_position_is_unsigned Ref.strict 1 2 _ 3 "x" (-1)%Z _
           Hd Ht Hr).
Defined.


(** C10 as stated fails on two inputs: a NULL database handle is
    dereferenced, and an operator code the library constructor rejects
    makes [xapian_query_combine] leave by an exception; neither call returns
    a handle. *)
Lemma C10_counterexample :
  xapian_enquire_new NULL term_queries_database = Undef /\
  exists e s',
    xapian_query_combine 999 2 4 term_queries_database = Throw e s' /\
    cell e s' = Some (O_Error "InvalidOperatorError" 9).
Proof.
  split; [reflexivity|].
  eexists _, _. split; reflexivity.
Qed.

Lemma C10_constructors_return_new_handles_witness :
  C_string_at 1 "c" term_queries_database /\
  query_handle 2 3 (TermLeaf "a") term_queries_database /\
  query_handle 4 5 (TermLeaf "b") term_queries_database /\
  @database_handle Ref.strict 6 7 false (Ref.mkDatabase "/idx" []) term_queries_database /\
  returns_new_handle (xapian_document_new term_queries_database)
    term_queries_database
    (fun h p s' => document_handle h p (mkDocument EmptyString []) s') /\
  returns_new_handle (xapian_query_new 1 term_queries_database)
    term_queries_database
    (fun h p s' => query_handle h p (TermLeaf "c") s') /\
  returns_new_handle (xapian_query_combine 1 2 4 term_queries_database)
    term_queries_database
    (fun h p s' => query_handle h p (Combine 1 (TermLeaf "a") (TermLeaf "b")) s') /\
  leaves_by_exception
    (XapianError "InvalidOperatorError" "unrecognised operator code")
    (xapian_query_combine 999 2 4 term_queries_database)
    term_queries_database /\
  returns_new_handle (xapian_enquire_new 6 term_queries_database)
    term_queries_database
    (fun h p s' => @enquire_handle Ref.strict h p (Ref.mkDatabase "/idx" []) s').
Proof.
  assert (Ht : @C_string_at Ref.strict 1 "c" term_queries_database).
  { eexists. split; reflexivity. }
  assert (Ha : @query_handle Ref.strict 2 3 (TermLeaf "a") term_queries_database)
    by (split; reflexivity).
  assert (Hb : @query_handle Ref.strict 4 5 (TermLeaf "b") term_queries_database)
    by (split; reflexivity).
  assert (Hd : @database_handle Ref.strict 6 7 false (Ref.mkDatabase "/idx" [])
                 term_queries_database) by (split; reflexivity).
  pose proof (@C10_constructors_return_new_handles Ref.strict)
    as (Hdoc & Hnew & Hcombine & Henquire).
  split; [exact Ht|]. split; [exact Ha|]. split; [exact Hb|]. split; [exact Hd|].
  split; [exact (Hdoc term_queries_database)|].
  split; [exact (Hnew 1 "c" term_queries_database Ht)|].
  split; [exact (Hcombine 1%Z 2 3 _ 4 5 _ term_queries_database Ha Hb)|].
  split; [exact (Hcombine 999%Z 2 3 _ 4 5 _ term_queries_database Ha Hb)|].
  exact (Henquire 6 7 false _ term_queries_database Hd).
Defined.

(** ** Further properties of the binding *)

Section Lifetimes.
Context `{X : Xapian} `{D : !XapianDtor X}.

(** *** Memory, continued *)

Lemma cell_set_None (p : ptr) (s : state) : cell p (set_cell p None s) = None.
Proof.
  destruct p as [|i]; [reflexivity|]. simpl.
  destruct (decide (i < length (mem s))) as [Hlt|Hge].
  - rewrite list_lookup_insert_eq by assumption. reflexivity.
  - rewrite list_insert_ge by lia. rewrite lookup_ge_None_2 by lia. reflexivity.
Qed.

Lemma cell_alloc_ne (p : ptr) (o : object) (s : state) :
  p <> fresh s -> cell p (alloc o s) = cell p s.
Proof.
  destruct p as [|i]; [reflexivity|]. unfold fresh. intros Hne. simpl.
  destruct (decide (i < length (mem s))) as [Hlt|Hge].
  - rewrite lookup_app_l by assumption. reflexivity.
  - rewrite !lookup_ge_None_2; [reflexivity | lia |].
    rewrite length_app. simpl. lia.
Qed.

Lemma cell_after_open (r : ptr) writable w d (s : state) :
  r <> fresh s -> r <> S (fresh s) ->
  cell r (after_open writable w d s) = cell r s.
Proof.
  intros H1 H2. unfold after_open.
  rewrite cell_set_ne by congruence.
  rewrite cell_alloc_ne
    by (rewrite fresh_with_env, fresh_alloc; assumption).
  rewrite cell_with_env. apply cell_alloc_ne. assumption.
Qed.

Lemma cell_at_catch (r : ptr) w err (s : state) :
  r <> fresh s -> r <> S (fresh s) -> r <> S (S (fresh s)) ->
  cell r (at_catch w err s) = cell r s.
Proof.
  intros H1 H2 H3. unfold at_catch.
  rewrite cell_alloc_ne
    by (rewrite fresh_alloc, fresh_with_env, fresh_alloc; assumption).
  rewrite cell_alloc_ne
    by (rewrite fresh_with_env, fresh_alloc; assumption).
  rewrite cell_with_env. apply cell_alloc_ne. assumption.
Qed.

(** The handler of [xapian_database_new] runs in a state that differs from
    [at_catch] in the handle struct only. *)
Lemma handler_state_of_database_new (r : ptr) w err (s : state) :
  r <> fresh s ->
  cell r (alloc (O_Error (get_type err) (S (fresh s)))
            (alloc (O_string (get_msg err))
               (with_env w (alloc O_indeterminate s))))
  = cell r (at_catch w err s).
Proof.
  intros Hne. unfold at_catch.
  destruct (decide (r = S (S (fresh s)))) as [->|H2].
  { rewrite <- (fresh_alloc O_indeterminate s) at 1.
    rewrite <- (fresh_with_env w) at 1.
    rewrite <- (fresh_alloc (O_string (get_msg err))) at 1.
    rewrite cell_alloc_fresh. symmetry. apply at_catch_exception. }
  rewrite !(cell_alloc_ne r (O_Error _ _))
    by (rewrite fresh_alloc, fresh_with_env, fresh_alloc; assumption).
  destruct (decide (r = S (fresh s))) as [->|H1].
  { rewrite <- (fresh_alloc O_indeterminate s) at 1.
    rewrite <- (fresh_with_env w) at 1.
    rewrite cell_alloc_fresh.
    rewrite <- (fresh_alloc (O_xapian_database_t NULL) s) at 1.
    rewrite <- (fresh_with_env w) at 1.
    rewrite cell_alloc_fresh. reflexivity. }
  rewrite !(cell_alloc_ne r (O_string _))
    by (rewrite fresh_with_env, fresh_alloc; assumption).
  rewrite !cell_with_env, !cell_alloc_ne by assumption. reflexivity.
Qed.

Lemma cell_after_catch (r : ptr) w err errorStr (s : state) :
  r <> errorStr -> cell r (after_catch w err errorStr s) = cell r s.
Proof.
  intros Hne. unfold after_catch.
  destruct (decide (r = S (S (fresh s)))) as [->|H3].
  { rewrite cell_set_None. symmetry. apply cell_beyond. unfold fresh. lia. }
  rewrite cell_set_ne by congruence.
  destruct (decide (r = S (fresh s))) as [->|H2].
  { rewrite cell_set_None. symmetry. apply cell_successor_fresh. }
  rewrite cell_set_ne by congruence.
  destruct (decide (r = fresh s)) as [->|H1].
  { rewrite cell_set_None. symmetry. apply cell_fresh. }
  rewrite cell_set_ne by congruence.
  rewrite cell_set_ne by congruence.
  apply cell_at_catch; assumption.
Qed.

(** *** Opening a database, continued *)

(** X1.  A failed open leaves nothing behind: the handle struct, the
    exception and its message are all destroyed, and apart from the caller's
    error variable every address holds after the call what it held before. *)
Theorem failed_open_leaks_nothing
    (cFilename : ptr) (path : string) (options : Z) (errorStr old : ptr)
    (s : state) (w : world) (err : Error) :
  C_string_at cFilename path s ->
  cell errorStr s = Some (O_charp old) ->
  (WritableDatabase_ctor path options (env s) = (w, inl err) ->
   exists s',
     xapian_writable_db_new cFilename options errorStr s = Ret NULL s' /\
     forall r, r <> errorStr -> cell r s' = cell r s)
  /\
  (Database_ctor path (env s) = (w, inl err) ->
   exists s',
     xapian_database_new cFilename errorStr s = Ret NULL s' /\
     forall r, r <> errorStr -> cell r s' = cell r s).
Proof.
  intros Hf He. split; intros Hc; exists (after_catch w err errorStr s).
  - split; [eapply writable_db_new_fails; eassumption|].
    intros r Hr. apply cell_after_catch. assumption.
  - split; [eapply database_new_fails; eassumption|].
    intros r Hr. apply cell_after_catch. assumption.
Qed.

(** X2.  A successful open never looks at [errorStr]: whatever is passed for
    it, NULL included, the call returns the handle, and only the two
    addresses of the new handle struct and database object, unused before,
    differ after the call. *)
Theorem successful_open_ignores_errorStr
    (cFilename : ptr) (path : string) (options : Z) (errorStr : ptr)
    (s : state) (w : world) (d : Database) :
  C_string_at cFilename path s ->
  (WritableDatabase_ctor path options (env s) = (w, inr d) ->
   exists db p s',
     xapian_writable_db_new cFilename options errorStr s = Ret db s' /\
     database_handle db p true d s' /\
     cell db s = None /\ cell p s = None /\
     forall r, r <> db -> r <> p -> cell r s' = cell r s)
  /\
  (Database_ctor path (env s) = (w, inr d) ->
   exists db p s',
     xapian_database_new cFilename errorStr s = Ret db s' /\
     database_handle db p false d s' /\
     cell db s = None /\ cell p s = None /\
     forall r, r <> db -> r <> p -> cell r s' = cell r s).
Proof.
  intros Hf. split; intros Hc.
  - exists (fresh s), (S (fresh s)), (after_open true w d s).
    split; [eapply writable_db_new_succeeds; eassumption|].
    split; [apply after_open_handle|].
    split; [apply cell_fresh|]. split; [apply cell_successor_fresh|].
    intros r H1 H2. apply cell_after_open; assumption.
  - exists (fresh s), (S (fresh s)), (after_open false w d s).
    split; [eapply database_new_succeeds; eassumption|].
    split; [apply after_open_handle|].
    split; [apply cell_fresh|]. split; [apply cell_successor_fresh|].
    intros r H1 H2. apply cell_after_open; assumption.
Qed.

Lemma run_handler_NULL db err s :
  match
    (Error_get_msg (S (fresh s))
       ≫= λ msg : ptr,
            store NULL (O_charp (c_str msg))
            ≫= λ _ : (), delete db ≫= λ _ : (), mret NULL)
      (alloc (O_Error (get_type err) (fresh s)) (alloc (O_string (get_msg err)) s))
  with
  | Ret a s2 =>
      match destroy_exception (S (fresh s)) s2 with
      | Ret _ s3 => Ret a s3
      | _ => Undef
      end
  | r => r
  end = Undef.
Proof.
  unfold Error_get_msg.
  rewrite !run_bind.
  erewrite run_load
    by (rewrite <- (fresh_alloc (O_string (get_msg err)) s); apply cell_alloc_fresh).
  cbv beta iota. unfold mret at 1, M_ret at 1.
  rewrite run_bind. reflexivity.
Qed.

(** X3.  A failed open with NULL for [errorStr] is undefined: the handler
    stores through the pointer without a check. *)
Theorem failed_open_with_NULL_errorStr_is_undefined
    (cFilename : ptr) (path : string) (options : Z)
    (s : state) (w : world) (err : Error) :
  C_string_at cFilename path s ->
  (WritableDatabase_ctor path options (env s) = (w, inl err) ->
   xapian_writable_db_new cFilename options NULL s = Undef)
  /\
  (Database_ctor path (env s) = (w, inl err) ->
   xapian_database_new cFilename NULL s = Undef).
Proof.
  intros Hf. split; intros Hc.
  - unfold xapian_writable_db_new.
    rewrite run_bind. unfold new at 1. unfold try_catch.
    rewrite run_bind.
    rewrite (run_std_string _ _ _ (C_string_at_alloc _ _ _ _ Hf)).
    rewrite run_bind.
    erewrite run_call_world_throw by (simpl; eassumption).
    rewrite run_throw. apply run_handler_NULL.
  - unfold xapian_database_new.
    rewrite run_bind. unfold new at 1. unfold try_catch.
    rewrite run_bind.
    rewrite (run_std_string _ _ _ (C_string_at_alloc _ _ _ _ Hf)).
    rewrite run_bind.
    erewrite run_call_world_throw by (simpl; eassumption).
    rewrite run_throw. apply run_handler_NULL.
Qed.

(** *** Constructors and [add_document], continued *)

(** X4.  When the library constructor throws, [xapian_query_combine] and
    [xapian_enquire_new] leave behind the handle struct they allocated on
    entry: it stays allocated, its member never initialised, at an address
    the caller never receives.  (The two database constructors delete
    theirs.) *)
Theorem failed_constructor_leaks_handle_struct
    (op : Z) (qa pa : ptr) (a : Query) (qb pb : ptr) (b : Query)
    (database pd : ptr) (writable : bool) (d : Database)
    (err : Error) (s : state) :
  (query_handle qa pa a s -> query_handle qb pb b s ->
   Query_ctor op a b = inl err ->
   exists e h s',
     xapian_query_combine op qa qb s = Throw e s' /\
     cell h s = None /\ cell h s' = Some O_indeterminate /\
     preserved s s')
  /\
  (database_handle database pd writable d s ->
   Enquire_ctor d = inl err ->
   exists e h s',
     xapian_enquire_new database s = Throw e s' /\
     cell h s = None /\ cell h s' = Some O_indeterminate /\
     preserved s s').
Proof.
  split.
  - intros Ha Hb Hc.
    rewrite (run_query_combine op _ _ _ _ _ _ _ Ha Hb), Hc.
    destruct (@run_throw_cells X ptr err (alloc O_indeterminate s))
      as (e & msg & s' & Ht & He & Hm & Hp).
    exists e, (fresh s), s'. split; [assumption|].
    split; [apply cell_fresh|].
    split; [apply Hp, cell_alloc_fresh|].
    eapply preserved_trans; [apply preserved_alloc | exact Hp].
  - intros Hd Hc.
    rewrite (run_enquire_new _ _ _ _ _ Hd), Hc.
    destruct (@run_throw_cells X ptr err (alloc O_indeterminate s))
      as (e & msg & s' & Ht & He & Hm & Hp).
    exists e, (fresh s), s'. split; [assumption|].
    split; [apply cell_fresh|].
    split; [apply Hp, cell_alloc_fresh|].
    eapply preserved_trans; [apply preserved_alloc | exact Hp].
Qed.

Lemma add_document_to_reader database p d document s :
  database_handle database p false d s ->
  xapian_writable_db_add_document database document s = Undef.
Proof.
  intros [Hh Hp]. unfold xapian_writable_db_add_document.
  rewrite run_bind, (run_get_xapian_database _ p) by assumption.
  rewrite run_bind. unfold deref_WritableDatabase.
  rewrite run_bind, (run_load _ _ _ Hp). reflexivity.
Qed.

(** X5.  Adding a document through a handle that [xapian_database_new]
    returned is undefined: the function casts the read-only database object
    to a writable one without a check. *)
Theorem add_document_to_read_only_database_is_undefined
    (cFilename : ptr) (path : string) (errorStr : ptr)
    (s : state) (w : world) (d : Database) :
  C_string_at cFilename path s ->
  Database_ctor path (env s) = (w, inr d) ->
  exists db s',
    xapian_database_new cFilename errorStr s = Ret db s' /\
    forall document, xapian_writable_db_add_document db document s' = Undef.
Proof.
  intros Hf Hc. exists (fresh s), (after_open false w d s).
  split; [eapply database_new_succeeds; eassumption|].
  intros document. eapply add_document_to_reader. apply after_open_handle.
Qed.

(** X6.  An exception thrown by the library's [add_document] is not caught:
    it leaves [xapian_writable_db_add_document] in flight.  The binding
    itself has stored nothing by then: the document and every object other
    than the database object are as before the call.  (What the throwing
    library call has done to the database object is the library's affair.) *)
Theorem add_document_exception_passes_through
    (database p : ptr) (wdb : Database) (document q : ptr) (doc : Document)
    (err : Error) (s : state) :
  database_handle database p true wdb s ->
  document_handle document q doc s ->
  add_document doc wdb = inl err ->
  exists e msg s',
    xapian_writable_db_add_document database document s = Throw e s' /\
    cell e s' = Some (O_Error (get_type err) msg) /\
    cell msg s' = Some (O_string (get_msg err)) /\
    document_handle document q doc s' /\
    forall r o, r <> p -> cell r s = Some o -> cell r s' = Some o.
Proof.
  intros Hd Hdoc Hadd.
  rewrite (run_writable_db_add_document _ _ _ _ _ _ _ Hd Hdoc), Hadd.
  rewrite run_throw.
  assert (Hp : preserved s
            (alloc (O_Error (get_type err) (fresh s))
               (alloc (O_string (get_msg err)) s))).
  { eapply preserved_trans; apply preserved_alloc. }
  eexists _, _, _. split; [reflexivity|].
  split; [rewrite <- (fresh_alloc (O_string (get_msg err)) s); apply cell_alloc_fresh|].
  split; [eapply cell_alloc_old; apply cell_alloc_fresh|].
  destruct Hdoc as [Hq1 Hq2].
  split; [split; apply Hp; assumption|].
  intros r o _ Hr. apply Hp. exact Hr.
Qed.

(** X7.  [xapian_writable_db_add_document] does not consume the document:
    its handle denotes the same document afterwards, and changing that
    document later does not change what the database object received. *)
Theorem document_is_independent_of_database_after_add
    (database p : ptr) (wdb : Database) (document q : ptr) (doc : Document)
    (data : ptr) (text : string) (s : state) (id : Z) (wdb' : Database) :
  database_handle database p true wdb s ->
  document_handle document q doc s ->
  C_string_at data text s ->
  add_document doc wdb = inr (id, wdb') ->
  exists s1 s2,
    xapian_writable_db_add_document database document s = Ret tt s1 /\
    document_handle document q doc s1 /\
    xapian_document_set_data document data s1 = Ret tt s2 /\
    database_handle database p true wdb' s2 /\
    document_handle document q (Document_set_data text doc) s2.
Proof.
  intros Hd Hdoc Ht Hadd.
  rewrite (run_writable_db_add_document _ _ _ _ _ _ _ Hd Hdoc), Hadd. simpl.
  destruct Hd as [Hd1 Hd2]. destruct Hdoc as [Hq1 Hq2].
  destruct Ht as (a & Ha & Hs).
  assert (Hpq : p <> q) by (intros ->; rewrite Hd2 in Hq2; discriminate).
  assert (Hpd : p <> document) by (intros ->; rewrite Hd2 in Hq1; discriminate).
  assert (Hpb : p <> database) by (intros ->; rewrite Hd2 in Hd1; discriminate).
  assert (Hpa : p <> data) by (intros ->; rewrite Hd2 in Ha; discriminate).
  assert (Hqd : q <> document) by (intros ->; rewrite Hq2 in Hq1; discriminate).
  assert (Hqb : q <> database) by (intros ->; rewrite Hq2 in Hd1; discriminate).
  set (s1 := set_cell p (Some (O_Database true wdb')) s).
  assert (Hdoc1 : document_handle document q doc s1).
  { split; unfold s1; rewrite cell_set_ne by assumption; assumption. }
  assert (Ht1 : C_string_at data text s1).
  { exists a. split; [|assumption].
    unfold s1. rewrite cell_set_ne by assumption. assumption. }
  exists s1, (set_cell q (Some (O_Document (Document_set_data text doc))) s1).
  split; [reflexivity|]. split; [exact Hdoc1|].
  split; [apply (run_document_set_data _ _ _ _ _ _ Hdoc1 Ht1)|].
  split; split.
  - rewrite cell_set_ne by congruence. unfold s1.
    rewrite cell_set_ne by assumption. assumption.
  - rewrite cell_set_ne by congruence. unfold s1.
    eapply cell_set_eq. eassumption.
  - rewrite cell_set_ne by assumption. apply Hdoc1.
  - eapply cell_set_eq. apply Hdoc1.
Qed.

(** *** Strings and positions at the boundary, continued *)

Lemma string_of_chars_NUL_free (a t : string) :
  string_of_chars a = Some t -> NUL_free t = true.
Proof.
  revert t. induction a as [|c a IH]; simpl; intros t H; [discriminate|].
  destruct (Ascii.eqb c NUL) eqn:Ec.
  - injection H as <-. reflexivity.
  - destruct (string_of_chars a) as [t'|]; [|discriminate].
    injection H as <-. simpl. rewrite Ec. simpl. apply IH. reflexivity.
Qed.

Lemma string_of_chars_unterminated (a : string) :
  NUL_free a = true -> string_of_chars a = None.
Proof.
  induction a as [|c a IH]; simpl; [reflexivity|].
  destruct (Ascii.eqb c NUL); simpl; [discriminate|].
  intros H. rewrite (IH H). reflexivity.
Qed.

Lemma document_handle_set doc p d d' s :
  document_handle doc p d s ->
  document_handle doc p d' (set_cell p (Some (O_Document d')) s).
Proof.
  intros Hd. pose proof (handle_object_distinct _ _ _ _ Hd) as Hne.
  destruct Hd as [Hh Hp]. split.
  - rewrite cell_set_ne by assumption. assumption.
  - eapply cell_set_eq. eassumption.
Qed.

Lemma C_string_at_set x text p d d' s :
  cell p s = Some (O_Document d) ->
  C_string_at x text s ->
  C_string_at x text (set_cell p (Some (O_Document d')) s).
Proof.
  intros Hp (a & Ha & Ht). exists a. split; [|assumption].
  rewrite cell_set_ne; [assumption|]. intros ->. rewrite Hp in Ha. discriminate.
Qed.

(** X8.  The two mutators of a document compose on one handle: after
    [set_data], [add_posting], [set_data] the document holds the data of the
    second [set_data], the posting added in between and every posting it
    had, and no other object has changed. *)
Theorem document_mutators_compose
    (doc p : ptr) (d : Document) (data1 : ptr) (t1 : string)
    (posting : ptr) (t : string) (pos : Z) (data2 : ptr) (t2 : string)
    (s : state) :
  document_handle doc p d s ->
  C_string_at data1 t1 s ->
  C_string_at posting t s ->
  C_string_at data2 t2 s ->
  exists s1 s2 s3 d',
    xapian_document_set_data doc data1 s = Ret tt s1 /\
    xapian_document_add_posting doc posting pos s1 = Ret tt s2 /\
    xapian_document_set_data doc data2 s2 = Ret tt s3 /\
    document_handle doc p d' s3 /\
    doc_data d' = t2 /\
    In (t, termpos_of_int pos) (doc_postings d') /\
    (forall x, In x (doc_postings d) -> In x (doc_postings d')) /\
    forall r, r <> p -> cell r s3 = cell r s.
Proof.
  intros Hd H1 Hp H2.
  set (d1 := Document_set_data t1 d).
  set (d2 := Document_add_posting t (termpos_of_int pos) d1).
  set (d3 := Document_set_data t2 d2).
  set (s1 := set_cell p (Some (O_Document d1)) s).
  set (s2 := set_cell p (Some (O_Document d2)) s1).
  set (s3 := set_cell p (Some (O_Document d3)) s2).
  assert (Hd1 : document_handle doc p d1 s1) by (eapply document_handle_set; eassumption).
  assert (Hd2 : document_handle doc p d2 s2) by (eapply document_handle_set; eassumption).
  assert (Hd3 : document_handle doc p d3 s3) by (eapply document_handle_set; eassumption).
  assert (Hp1 : C_string_at posting t s1) by (eapply C_string_at_set; [apply Hd | assumption]).
  assert (H21 : C_string_at data2 t2 s1) by (eapply C_string_at_set; [apply Hd | assumption]).
  assert (H22 : C_string_at data2 t2 s2) by (eapply C_string_at_set; [apply Hd1 | assumption]).
  exists s1, s2, s3, d3.
  split; [apply (run_document_set_data _ _ _ _ _ _ Hd H1)|].
  split; [apply (run_document_add_posting _ _ _ _ _ _ _ Hd1 Hp1)|].
  split; [apply (run_document_set_data _ _ _ _ _ _ Hd2 H22)|].
  split; [exact Hd3|]. split; [reflexivity|].
  split; [simpl; apply in_or_app; right; left; reflexivity|].
  split; [intros x Hx; simpl; apply in_or_app; left; exact Hx|].
  intros r Hr. unfold s3, s2, s1. rewrite !cell_set_ne by congruence. reflexivity.
Qed.

(** X9.  No text that crosses the boundary holds a NUL byte: whatever char
    array the caller passes, the data [xapian_document_set_data] stores, the
    term [xapian_document_add_posting] records and the term of the query
    [xapian_query_new] builds are free of NUL. *)
Theorem text_crossing_the_boundary_has_no_NUL
    (doc p : ptr) (d : Document) (chars : ptr) (text : string) (pos : Z)
    (s : state) :
  document_handle doc p d s ->
  C_string_at chars text s ->
  (exists s' d',
     xapian_document_set_data doc chars s = Ret tt s' /\
     document_handle doc p d' s' /\ NUL_free (doc_data d') = true)
  /\
  (exists s' d' position,
     xapian_document_add_posting doc chars pos s = Ret tt s' /\
     document_handle doc p d' s' /\
     (doc_postings d' = doc_postings d ++ [(text, position)])%list /\
     NUL_free text = true)
  /\
  (exists h q s',
     xapian_query_new chars s = Ret h s' /\
     query_handle h q (TermLeaf text) s' /\ NUL_free text = true).
Proof.
  intros Hd Ht.
  assert (Hfree : NUL_free text = true).
  { destruct Ht as (a & _ & Ha). eapply string_of_chars_NUL_free. eassumption. }
  split; [|split].
  - eexists _, _. split; [apply (run_document_set_data _ _ _ _ _ _ Hd Ht)|].
    split; [eapply document_handle_set; eassumption | exact Hfree].
  - eexists _, _, _.
    split; [apply (run_document_add_posting _ _ _ _ _ _ _ Hd Ht)|].
    split; [eapply document_handle_set; eassumption|].
    split; [reflexivity | exact Hfree].
  - eexists _, _, _. split; [apply (run_query_new _ _ _ Ht)|].
    split; [|exact Hfree].
    split; [apply after_new_handle | apply after_new_object].
Qed.

(** X10.  [xapian_query_new] cuts its term at the first NUL byte, so two
    byte sequences that agree up to there give handles of equal queries,
    with equal descriptions. *)
Theorem terms_equal_up_to_NUL_give_equal_queries
    (term1 term2 : ptr) (bytes1 bytes2 : string) (s : state) :
  cell term1 s = Some (O_chars (as_C_string bytes1)) ->
  cell term2 s = Some (O_chars (as_C_string bytes2)) ->
  until_NUL bytes1 = until_NUL bytes2 ->
  exists h1 p1 s1 h2 p2 s2,
    xapian_query_new term1 s = Ret h1 s1 /\
    xapian_query_new term2 s1 = Ret h2 s2 /\
    h1 <> h2 /\
    query_handle h1 p1 (TermLeaf (until_NUL bytes1)) s2 /\
    query_handle h2 p2 (TermLeaf (until_NUL bytes1)) s2 /\
    description h1 s2 = description h2 s2.
Proof.
  intros H1 H2 Heq.
  assert (Ht1 : C_string_at term1 (until_NUL bytes1) s).
  { eexists. split; [eassumption | apply string_of_chars_as_C_string]. }
  assert (Ht2 : C_string_at term2 (until_NUL bytes1) s).
  { eexists. split; [eassumption|]. rewrite Heq. apply string_of_chars_as_C_string. }
  set (s1 := after_new O_indeterminate (O_xapian_query_t (S (fresh s)))
               (O_Query (TermLeaf (until_NUL bytes1))) s).
  assert (Hq1 : query_handle (fresh s) (S (fresh s)) (TermLeaf (until_NUL bytes1)) s1).
  { split; [apply after_new_handle | apply after_new_object]. }
  assert (Ht2' : C_string_at term2 (until_NUL bytes1) s1).
  { destruct Ht2 as (a & Ha & Hs). exists a. split; [|assumption].
    apply preserved_after_new. assumption. }
  set (s2 := after_new O_indeterminate (O_xapian_query_t (S (fresh s1)))
               (O_Query (TermLeaf (until_NUL bytes1))) s1).
  assert (Hq2 : query_handle (fresh s1) (S (fresh s1)) (TermLeaf (until_NUL bytes1)) s2).
  { split; [apply after_new_handle | apply after_new_object]. }
  assert (Hq1' : query_handle (fresh s) (S (fresh s)) (TermLeaf (until_NUL bytes1)) s2).
  { destruct Hq1. split; apply preserved_after_new; assumption. }
  exists (fresh s), (S (fresh s)), s1, (fresh s1), (S (fresh s1)), s2.
  split; [apply (run_query_new _ _ _ Ht1)|].
  split; [apply (run_query_new _ _ _ Ht2')|].
  split.
  { intros E. destruct Hq1 as [Hh _]. rewrite E, cell_fresh in Hh. discriminate. }
  split; [exact Hq1'|]. split; [exact Hq2|].
  rewrite (description_handle _ _ _ _ Hq1'), (description_handle _ _ _ _ Hq2).
  reflexivity.
Qed.

(** X11.  A char array without a terminating NUL makes every function that
    takes text undefined: the conversion to [std::string] runs past the end
    of the array. *)
Theorem unterminated_text_is_undefined
    (doc p : ptr) (d : Document) (chars : ptr) (a : string) (pos : Z)
    (s : state) :
  document_handle doc p d s ->
  cell chars s = Some (O_chars a) ->
  NUL_free a = true ->
  xapian_document_set_data doc chars s = Undef /\
  xapian_document_add_posting doc chars pos s = Undef /\
  xapian_query_new chars s = Undef /\
  (forall options errorStr, xapian_writable_db_new chars options errorStr s = Undef) /\
  (forall errorStr, xapian_database_new chars errorStr s = Undef).
Proof.
  intros [Hh Hp] Hc Hfree.
  pose proof (string_of_chars_unterminated _ Hfree) as Hnone.
  assert (Hstd : forall s0, cell chars s0 = Some (O_chars a) ->
                            std_string chars s0 = Undef).
  { intros s0 H0. unfold std_string.
    rewrite run_bind, (run_load _ _ _ H0), Hnone. reflexivity. }
  split; [|split; [|split; [|split]]].
  - unfold xapian_document_set_data.
    rewrite run_bind, (run_get_xapian_document _ p) by assumption.
    rewrite run_bind, (run_deref_Document _ d) by assumption.
    rewrite run_bind, (Hstd _ Hc). reflexivity.
  - unfold xapian_document_add_posting.
    rewrite run_bind, (run_get_xapian_document _ p) by assumption.
    rewrite run_bind, (run_deref_Document _ d) by assumption.
    rewrite run_bind, (Hstd _ Hc). reflexivity.
  - unfold xapian_query_new, new. rewrite run_bind.
    rewrite run_bind, Hstd by (eapply cell_alloc_old; eassumption). reflexivity.
  - intros options errorStr. unfold xapian_writable_db_new, new, try_catch.
    rewrite run_bind.
    rewrite run_bind, Hstd by (eapply cell_alloc_old; eassumption). reflexivity.
  - intros errorStr. unfold xapian_database_new, new, try_catch.
    rewrite run_bind.
    rewrite run_bind, Hstd by (eapply cell_alloc_old; eassumption). reflexivity.
Qed.

(** X12.  The conversion of the [int] position to the recorded unsigned
    position loses nothing: different [int] values are recorded as different
    positions, and every unsigned 32-bit position is the record of the
    [int] with the same bits. *)
Theorem posting_position_conversion_is_a_bijection :
  (forall pos1 pos2,
     int_range pos1 -> int_range pos2 ->
     termpos_of_int pos1 = termpos_of_int pos2 -> pos1 = pos2)
  /\
  (forall u,
     (0 <= u < 2 ^ 32)%Z ->
     int_range (int_of_termpos u) /\ termpos_of_int (int_of_termpos u) = u).
Proof.
  split.
  - intros pos1 pos2 H1 H2 Heq.
    destruct (termpos_of_int_unsigned _ H1) as [_ E1].
    destruct (termpos_of_int_unsigned _ H2) as [_ E2].
    rewrite E1, E2 in Heq. unfold int_range in *.
    destruct (Z.ltb_spec pos1 0), (Z.ltb_spec pos2 0); lia.
  - intros u Hu. unfold int_of_termpos.
    destruct (Z.ltb_spec u (2 ^ 31)).
    + assert (Hr : int_range u) by (unfold int_range; lia).
      split; [exact Hr|].
      destruct (termpos_of_int_unsigned _ Hr) as [_ E]. rewrite E.
      destruct (Z.ltb_spec u 0); lia.
    + assert (Hr : int_range (u - 2 ^ 32)) by (unfold int_range; lia).
      split; [exact Hr|].
      destruct (termpos_of_int_unsigned _ Hr) as [_ E]. rewrite E.
      destruct (Z.ltb_spec (u - 2 ^ 32) 0); lia.
Qed.

(** *** Describing and deleting *)

(** X13.  [xapian_query_describe] leaves the memory as it found it: the
    temporary it creates is gone when it returns, and every address holds
    what it held before, so the query can be described again. *)
Theorem describe_leaves_memory_unchanged
    (query p : ptr) (q : Query) (s : state) :
  query_handle query p q s ->
  exists r s',
    xapian_query_describe query s = Ret r s' /\
    env s' = env s /\
    (forall x, cell x s' = cell x s) /\
    query_handle query p q s' /\
    description query s' = Some (get_description q).
Proof.
  intros Hq.
  set (s' := set_cell (fresh s) None (alloc (O_string (get_description q)) s)).
  assert (Hcells : forall x, cell x s' = cell x s).
  { intros x. unfold s'. destruct (decide (x = fresh s)) as [->|Hne].
    - rewrite cell_set_None, cell_fresh. reflexivity.
    - rewrite cell_set_ne by congruence. apply cell_alloc_ne. assumption. }
  assert (Hq' : query_handle query p q s').
  { destruct Hq as [Hh Hp]. split; rewrite Hcells; assumption. }
  exists (fresh s), s'.
  split; [eapply run_query_describe; eassumption|].
  split; [unfold s'; rewrite env_set_cell; reflexivity|].
  split; [exact Hcells|]. split; [exact Hq'|].
  eapply description_handle. eassumption.
Qed.

Lemma run_document_delete h p d s :
  document_handle h p d s ->
  xapian_document_delete h s = Ret tt (set_cell h None (set_cell p None s)).
Proof.
  intros Hd. pose proof (handle_object_distinct _ _ _ _ Hd) as Hne.
  destruct Hd as [Hh Hp]. unfold xapian_document_delete.
  rewrite run_bind, (run_get_xapian_document _ p) by assumption.
  rewrite run_bind. unfold delete_Document.
  destruct p as [|i]; [discriminate Hp|].
  rewrite run_bind, (run_deref_Document _ d) by assumption.
  erewrite run_delete by eassumption.
  erewrite run_delete by (rewrite cell_set_ne by assumption; eassumption).
  reflexivity.
Qed.

Lemma run_query_delete h p q s :
  query_handle h p q s ->
  xapian_query_delete h s = Ret tt (set_cell h None (set_cell p None s)).
Proof.
  intros [Hh Hp].
  assert (Hne : p <> h) by (intros ->; rewrite Hh in Hp; discriminate).
  unfold xapian_query_delete.
  rewrite run_bind, (run_get_xapian_query _ p) by assumption.
  rewrite run_bind. unfold delete_Query.
  destruct p as [|i]; [discriminate Hp|].
  rewrite run_bind, (run_deref_Query _ q) by assumption.
  erewrite run_delete by eassumption.
  erewrite run_delete by (rewrite cell_set_ne by assumption; eassumption).
  reflexivity.
Qed.

Lemma run_enquire_delete h p e s :
  enquire_handle h p e s ->
  xapian_enquire_delete h s = Ret tt (set_cell h None (set_cell p None s)).
Proof.
  intros [Hh Hp].
  assert (Hne : p <> h) by (intros ->; rewrite Hh in Hp; discriminate).
  unfold xapian_enquire_delete, get_xapian_enquire.
  rewrite !run_bind, (run_load _ _ _ Hh). cbv beta iota.
  unfold mret at 1, M_ret at 1. unfold delete_Enquire, deref_Enquire.
  destruct p as [|i]; [discriminate Hp|].
  rewrite !run_bind, (run_load _ _ _ Hp). cbv beta iota.
  unfold mret at 1, M_ret at 1.
  erewrite run_delete by eassumption.
  erewrite run_delete by (rewrite cell_set_ne by assumption; eassumption).
  reflexivity.
Qed.

Lemma run_database_delete h p writable d s :
  database_handle h p writable d s ->
  xapian_database_delete h s
  = Ret tt (set_cell h None
              (set_cell p None (with_env (Database_dtor writable d (env s)) s))).
Proof.
  intros [Hh Hp].
  assert (Hne : p <> h) by (intros ->; rewrite Hh in Hp; discriminate).
  unfold xapian_database_delete.
  rewrite run_bind, (run_get_xapian_database _ p) by assumption.
  rewrite run_bind. unfold delete_Database.
  destruct p as [|i]; [discriminate Hp|].
  rewrite !run_bind, (run_load _ _ _ Hp). cbv beta iota.
  rewrite run_bind. unfold close_Database.
  erewrite run_delete by (rewrite cell_with_env; eassumption).
  erewrite run_delete
    by (rewrite cell_set_ne by assumption; rewrite cell_with_env; eassumption).
  reflexivity.
Qed.

Lemma deleted_pair h p s :
  p <> h ->
  cell h (set_cell h None (set_cell p None s)) = None /\
  cell p (set_cell h None (set_cell p None s)) = None /\
  forall r, r <> h -> r <> p ->
            cell r (set_cell h None (set_cell p None s)) = cell r s.
Proof.
  intros Hne. split; [apply cell_set_None|]. split.
  - rewrite cell_set_ne by congruence. apply cell_set_None.
  - intros r H1 H2. rewrite !cell_set_ne by congruence. reflexivity.
Qed.

(** X14.  [xapian_document_delete], [xapian_query_delete] and
    [xapian_enquire_delete] free the handle struct and the library object
    behind it, and nothing else: every other address holds what it held. *)
Theorem delete_frees_handle_and_object
    (h p : ptr) (d : Document) (q : Query) (e : Enquire) (s : state) :
  (document_handle h p d s ->
   exists s',
     xapian_document_delete h s = Ret tt s' /\ env s' = env s /\
     cell h s' = None /\ cell p s' = None /\
     forall r, r <> h -> r <> p -> cell r s' = cell r s)
  /\
  (query_handle h p q s ->
   exists s',
     xapian_query_delete h s = Ret tt s' /\ env s' = env s /\
     cell h s' = None /\ cell p s' = None /\
     forall r, r <> h -> r <> p -> cell r s' = cell r s)
  /\
  (enquire_handle h p e s ->
   exists s',
     xapian_enquire_delete h s = Ret tt s' /\ env s' = env s /\
     cell h s' = None /\ cell p s' = None /\
     forall r, r <> h -> r <> p -> cell r s' = cell r s).
Proof.
  split; [|split]; intros Hh;
    exists (set_cell h None (set_cell p None s)).
  - split; [eapply run_document_delete; eassumption|].
    split; [rewrite !env_set_cell; reflexivity|].
    apply deleted_pair. destruct Hh as [H1 H2].
    intros ->. rewrite H1 in H2. discriminate.
  - split; [eapply run_query_delete; eassumption|].
    split; [rewrite !env_set_cell; reflexivity|].
    apply deleted_pair. destruct Hh as [H1 H2].
    intros ->. rewrite H1 in H2. discriminate.
  - split; [eapply run_enquire_delete; eassumption|].
    split; [rewrite !env_set_cell; reflexivity|].
    apply deleted_pair. destruct Hh as [H1 H2].
    intros ->. rewrite H1 in H2. discriminate.
Qed.

(** X15.  [xapian_database_delete] runs the destructor of the database
    object on the storage, frees the object and the handle struct, and
    leaves every other address as it was. *)
Theorem database_delete_closes_and_frees
    (h p : ptr) (writable : bool) (d : Database) (s : state) :
  database_handle h p writable d s ->
  exists s',
    xapian_database_delete h s = Ret tt s' /\
    env s' = Database_dtor writable d (env s) /\
    cell h s' = None /\ cell p s' = None /\
    forall r, r <> h -> r <> p -> cell r s' = cell r s.
Proof.
  intros Hh.
  exists (set_cell h None
            (set_cell p None (with_env (Database_dtor writable d (env s)) s))).
  split; [eapply run_database_delete; eassumption|].
  split; [rewrite !env_set_cell; reflexivity|].
  assert (Hne : p <> h).
  { destruct Hh as [H1 H2]. intros ->. rewrite H1 in H2. discriminate. }
  destruct (deleted_pair h p (with_env (Database_dtor writable d (env s)) s) Hne)
    as (H1 & H2 & H3).
  split; [exact H1|]. split; [exact H2|].
  intros r Hr1 Hr2. rewrite H3 by assumption. apply cell_with_env.
Qed.

(** *** Handles that are dead, null or of another kind *)

(** Runs every load of a call whose handle argument addresses no object of
    the expected kind. *)
Ltac run_to_undef :=
  cbv beta delta
    [xapian_writable_db_add_document xapian_document_set_data
     xapian_document_add_posting xapian_enquire_new xapian_query_combine
     xapian_query_describe xapian_database_delete xapian_document_delete
     xapian_enquire_delete xapian_query_delete Query_get_description
     delete_Database delete_Document delete_Enquire delete_Query
     get_xapian_database get_xapian_document get_xapian_enquire
     get_xapian_query deref_Database deref_WritableDatabase deref_Document
     deref_Enquire deref_Query std_string new load undef
     mbind M_bind mret M_ret];
  repeat
    match goal with
    | H : cell ?p ?s = _ |- context [cell ?p ?s] => rewrite H
    | |- context [match cell ?p ?s with _ => _ end] =>
        let E := fresh "E" in destruct (cell p s) as [[]|] eqn:E
    | |- context [match ?p with O => _ | S _ => _ end] =>
        is_var p; destruct p
    | |- context [match ?b with true => _ | false => _ end] =>
        is_var b; destruct b
    | |- context [match string_of_chars ?a with _ => _ end] =>
        destruct (string_of_chars a)
    | _ => reflexivity
    | _ => congruence
    end.

Lemma cell_dead_alloc (h : ptr) (o o' : object) (s s0 : state) :
  cell h s0 = Some o -> fresh s = fresh s0 -> cell h s = None ->
  cell h (alloc o' s) = None.
Proof.
  intros Hlive Hf Hdead. rewrite cell_alloc_ne; [assumption|].
  rewrite Hf. eapply live_not_fresh. eassumption.
Qed.

(** X16.  After [xapian_query_delete] the handle is dead: deleting it again,
    describing it, or combining it with any query, on either side, is
    undefined. *)
Theorem query_use_after_delete_is_undefined
    (h p : ptr) (q : Query) (s : state) :
  query_handle h p q s ->
  exists s',
    xapian_query_delete h s = Ret tt s' /\
    xapian_query_delete h s' = Undef /\
    xapian_query_describe h s' = Undef /\
    forall op other,
      xapian_query_combine op h other s' = Undef /\
      xapian_query_combine op other h s' = Undef.
Proof.
  intros Hq. pose proof Hq as [Hh Hp].
  set (s' := set_cell h None (set_cell p None s)).
  assert (Hdead : cell h s' = None) by apply cell_set_None.
  assert (Hdead' : cell h (alloc O_indeterminate s') = None).
  { eapply cell_dead_alloc; [exact Hh | | exact Hdead].
    unfold s'. rewrite !fresh_set_cell. reflexivity. }
  exists s'. split; [eapply run_query_delete; eassumption|].
  split; [run_to_undef|]. split; [run_to_undef|].
  intros op other. split.
  - unfold xapian_query_combine, new. rewrite run_bind. cbv beta iota.
    rewrite run_bind. unfold get_xapian_query at 1.
    rewrite run_bind. unfold load. rewrite Hdead'. reflexivity.
  - unfold xapian_query_combine, new. rewrite run_bind. cbv beta iota.
    generalize dependent (alloc O_indeterminate s'). intros s1 Hd1.
    run_to_undef.
Qed.

(** X17.  After [xapian_document_delete] and [xapian_database_delete] the
    handle is dead as well: a second delete and every function that takes
    the handle are undefined. *)
Theorem document_and_database_use_after_delete_is_undefined
    (h p : ptr) (d : Document) (writable : bool) (db : Database) (s : state) :
  (document_handle h p d s ->
   exists s',
     xapian_document_delete h s = Ret tt s' /\
     xapian_document_delete h s' = Undef /\
     (forall data, xapian_document_set_data h data s' = Undef) /\
     (forall posting pos, xapian_document_add_posting h posting pos s' = Undef) /\
     (forall database, xapian_writable_db_add_document database h s' = Undef))
  /\
  (database_handle h p writable db s ->
   exists s',
     xapian_database_delete h s = Ret tt s' /\
     xapian_database_delete h s' = Undef /\
     xapian_enquire_new h s' = Undef /\
     (forall document, xapian_writable_db_add_document h document s' = Undef)).
Proof.
  split.
  - intros Hd. pose proof Hd as [Hh Hp].
    set (s' := set_cell h None (set_cell p None s)).
    assert (Hdead : cell h s' = None) by apply cell_set_None.
    exists s'. split; [eapply run_document_delete; eassumption|].
    split; [run_to_undef|]. split; [intros data; run_to_undef|].
    split; [intros posting pos; run_to_undef|].
    intros database. run_to_undef.
  - intros Hd. pose proof Hd as [Hh Hp].
    set (s' := set_cell h None
                 (set_cell p None (with_env (Database_dtor writable db (env s)) s))).
    assert (Hdead : cell h s' = None) by apply cell_set_None.
    assert (Hdead' : cell h (alloc O_indeterminate s') = None).
    { eapply cell_dead_alloc; [exact Hh | | exact Hdead].
      unfold s'. rewrite !fresh_set_cell. reflexivity. }
    exists s'. split; [eapply run_database_delete; eassumption|].
    split; [run_to_undef|]. split.
    + unfold xapian_enquire_new, new. rewrite run_bind. cbv beta iota.
      rewrite run_bind. unfold get_xapian_database at 1.
      rewrite run_bind. unfold load. rewrite Hdead'. reflexivity.
    + intros document. run_to_undef.
Qed.

(** X18.  A null handle is undefined behaviour in every function that
    takes one, the four delete functions included (which, unlike [delete],
    are not null-safe): each dereferences the handle without a check. *)
Theorem null_handle_is_undefined
    (database p : ptr) (wdb : Database) (qa pa : ptr) (a : Query) (s : state) :
  database_handle database p true wdb s ->
  query_handle qa pa a s ->
  (forall data, xapian_document_set_data NULL data s = Undef) /\
  (forall posting pos, xapian_document_add_posting NULL posting pos s = Undef) /\
  (forall document, xapian_writable_db_add_document NULL document s = Undef) /\
  xapian_writable_db_add_document database NULL s = Undef /\
  xapian_enquire_new NULL s = Undef /\
  (forall op qb, xapian_query_combine op NULL qb s = Undef) /\
  (forall op, xapian_query_combine op qa NULL s = Undef) /\
  xapian_query_describe NULL s = Undef /\
  xapian_database_delete NULL s = Undef /\
  xapian_document_delete NULL s = Undef /\
  xapian_enquire_delete NULL s = Undef /\
  xapian_query_delete NULL s = Undef.
Proof.
  intros [Hd Hp] [Hq Hpa].
  repeat split; try reflexivity.
  - unfold xapian_writable_db_add_document.
    rewrite run_bind, (run_get_xapian_database _ p) by assumption.
    rewrite run_bind, (run_deref_WritableDatabase _ wdb) by assumption.
    reflexivity.
  - intros op. unfold xapian_query_combine, new. rewrite run_bind.
    rewrite run_bind, (run_get_xapian_query _ pa)
      by (eapply cell_alloc_old; eassumption).
    rewrite run_bind, (run_deref_Query _ a)
      by (eapply cell_alloc_old; eassumption).
    reflexivity.
Qed.

(** X19.  A handle of one kind passed where another kind is expected is
    undefined behaviour (the header declares them all as [void *], so the
    compiler does not object): here a query handle given to the functions
    on documents, databases and enquires. *)
Theorem handle_of_another_kind_is_undefined
    (query p : ptr) (q : Query) (s : state) :
  query_handle query p q s ->
  (forall data, xapian_document_set_data query data s = Undef) /\
  (forall posting pos, xapian_document_add_posting query posting pos s = Undef) /\
  (forall document, xapian_writable_db_add_document query document s = Undef) /\
  (forall database, xapian_writable_db_add_document database query s = Undef) /\
  xapian_enquire_new query s = Undef /\
  xapian_database_delete query s = Undef /\
  xapian_document_delete query s = Undef /\
  xapian_enquire_delete query s = Undef.
Proof.
  intros [Hh Hp].
  assert (Hh' : cell query (alloc O_indeterminate s)
                = Some (O_xapian_query_t p))
    by (eapply cell_alloc_old; eassumption).
  split; [intros data; run_to_undef|].
  split; [intros posting pos; run_to_undef|].
  split; [intros document; run_to_undef|].
  split; [intros database; run_to_undef|].
  split.
  { unfold xapian_enquire_new, new. rewrite run_bind. cbv beta iota.
    rewrite run_bind. unfold get_xapian_database at 1.
    rewrite run_bind, (run_load _ _ _ Hh'). reflexivity. }
  split; [run_to_undef|]. split; run_to_undef.
Qed.

(** *** Round trips and independence *)

Lemma cell_after_new (r : ptr) blank handle o (s : state) :
  r <> fresh s -> r <> S (fresh s) ->
  cell r (after_new blank handle o s) = cell r s.
Proof.
  intros H1 H2. unfold after_new.
  rewrite cell_set_ne by congruence.
  rewrite cell_alloc_ne by (rewrite fresh_alloc; assumption).
  apply cell_alloc_ne. assumption.
Qed.

Lemma new_then_deleted (blank handle o : object) (s : state) (r : ptr) :
  cell r (set_cell (fresh s) None
            (set_cell (S (fresh s)) None (after_new blank handle o s)))
  = cell r s.
Proof.
  destruct (decide (r = fresh s)) as [->|H1].
  { rewrite cell_set_None, cell_fresh. reflexivity. }
  rewrite cell_set_ne by congruence.
  destruct (decide (r = S (fresh s))) as [->|H2].
  { rewrite cell_set_None, cell_successor_fresh. reflexivity. }
  rewrite cell_set_ne by congruence.
  apply cell_after_new; assumption.
Qed.

(** X20.  Creation followed by deletion gives the memory back: after
    [xapian_document_new] and [xapian_document_delete], or
    [xapian_query_new] and [xapian_query_delete], every address holds what
    it held before the two calls. *)
Theorem new_then_delete_restores_memory
    (term : ptr) (text : string) (s : state) :
  (exists h s1 s2,
     xapian_document_new s = Ret h s1 /\
     xapian_document_delete h s1 = Ret tt s2 /\
     env s2 = env s /\ forall r, cell r s2 = cell r s)
  /\
  (C_string_at term text s ->
   exists h s1 s2,
     xapian_query_new term s = Ret h s1 /\
     xapian_query_delete h s1 = Ret tt s2 /\
     env s2 = env s /\ forall r, cell r s2 = cell r s).
Proof.
  split; [|intros Ht].
  - eexists _, _, _. split; [apply run_document_new|].
    split.
    { eapply run_document_delete.
      split; [apply after_new_handle | apply after_new_object]. }
    split.
    { rewrite !env_set_cell. unfold after_new. rewrite env_set_cell. reflexivity. }
    intros r. apply new_then_deleted.
  - eexists _, _, _. split; [apply (run_query_new _ _ _ Ht)|].
    split.
    { eapply run_query_delete.
      split; [apply after_new_handle | apply after_new_object]. }
    split.
    { rewrite !env_set_cell. unfold after_new. rewrite env_set_cell. reflexivity. }
    intros r. apply new_then_deleted.
Qed.

Lemma opened_then_deleted writable w w' d (s : state) (r : ptr) :
  cell r (set_cell (fresh s) None
            (set_cell (S (fresh s)) None
               (with_env w' (after_open writable w d s))))
  = cell r s.
Proof.
  destruct (decide (r = fresh s)) as [->|H1].
  { rewrite cell_set_None, cell_fresh. reflexivity. }
  rewrite cell_set_ne by congruence.
  destruct (decide (r = S (fresh s))) as [->|H2].
  { rewrite cell_set_None, cell_successor_fresh. reflexivity. }
  rewrite cell_set_ne by congruence.
  rewrite cell_with_env. apply cell_after_open; assumption.
Qed.

(** X21.  A database that is opened and then deleted leaves no object
    behind: every address holds what it held before the open, and the
    storage is what the library's constructor followed by its destructor
    made of it. *)
Theorem open_then_delete_restores_memory
    (cFilename : ptr) (path : string) (options : Z) (errorStr : ptr)
    (s : state) (w : world) (d : Database) :
  C_string_at cFilename path s ->
  (WritableDatabase_ctor path options (env s) = (w, inr d) ->
   exists db s1 s2,
     xapian_writable_db_new cFilename options errorStr s = Ret db s1 /\
     xapian_database_delete db s1 = Ret tt s2 /\
     env s2 = Database_dtor true d w /\
     forall r, cell r s2 = cell r s)
  /\
  (Database_ctor path (env s) = (w, inr d) ->
   exists db s1 s2,
     xapian_database_new cFilename errorStr s = Ret db s1 /\
     xapian_database_delete db s1 = Ret tt s2 /\
     env s2 = Database_dtor false d w /\
     forall r, cell r s2 = cell r s).
Proof.
  intros Hf. split; intros Hc.
  - eexists _, _, _.
    split; [eapply writable_db_new_succeeds; eassumption|].
    split; [eapply run_database_delete; apply after_open_handle|].
    rewrite env_after_open.
    split; [rewrite !env_set_cell; reflexivity|].
    intros r. apply opened_then_deleted.
  - eexists _, _, _.
    split; [eapply database_new_succeeds; eassumption|].
    split; [eapply run_database_delete; apply after_open_handle|].
    rewrite env_after_open.
    split; [rewrite !env_set_cell; reflexivity|].
    intros r. apply opened_then_deleted.
Qed.

(** X22.  A combined query does not depend on the handles it was built
    from: after [xapian_query_delete] of an operand the combined handle
    denotes the same query with the same description, while the operand's
    own handle is dead. *)
Theorem combined_query_survives_operand_deletion
    (op : Z) (qa pa : ptr) (a : Query) (qb pb : ptr) (b q : Query) (s : state) :
  query_handle qa pa a s ->
  query_handle qb pb b s ->
  Query_ctor op a b = inr q ->
  exists h p s1 s2,
    xapian_query_combine op qa qb s = Ret h s1 /\
    xapian_query_delete qa s1 = Ret tt s2 /\
    query_handle h p q s2 /\
    description h s2 = Some (get_description q) /\
    xapian_query_describe qa s2 = Undef.
Proof.
  intros Ha Hb Hq.
  rewrite (run_query_combine op _ _ _ _ _ _ _ Ha Hb), Hq.
  set (s1 := after_new O_indeterminate (O_xapian_query_t (S (fresh s)))
               (O_Query q) s).
  assert (Ha1 : query_handle qa pa a s1).
  { destruct Ha. split; apply preserved_after_new; assumption. }
  assert (Hh1 : query_handle (fresh s) (S (fresh s)) q s1).
  { split; [apply after_new_handle | apply after_new_object]. }
  set (s2 := set_cell qa None (set_cell pa None s1)).
  assert (Hh2 : query_handle (fresh s) (S (fresh s)) q s2).
  { destruct Ha as [Ha Hpa]. destruct Hh1 as [H1 H2].
    pose proof (cell_live_lt _ _ _ Ha) as (i & Hi & Hlt).
    pose proof (cell_live_lt _ _ _ Hpa) as (j & Hj & Hltj).
    split; unfold s2; rewrite !cell_set_ne by (unfold fresh; lia); assumption. }
  exists (fresh s), (S (fresh s)), s1, s2.
  split; [reflexivity|].
  split; [eapply run_query_delete; eassumption|].
  split; [exact Hh2|].
  split; [eapply description_handle; eassumption|].
  assert (Hdead : cell qa s2 = None) by apply cell_set_None.
  run_to_undef.
Qed.

(** X23.  Two documents do not share anything: two calls of
    [xapian_document_new] return different handles, and setting the data of
    the first leaves the second new. *)
Theorem documents_do_not_alias
    (data : ptr) (text : string) (s : state) :
  C_string_at data text s ->
  exists h1 p1 h2 p2 s1 s2 s3,
    xapian_document_new s = Ret h1 s1 /\
    xapian_document_new s1 = Ret h2 s2 /\
    h1 <> h2 /\
    xapian_document_set_data h1 data s2 = Ret tt s3 /\
    document_handle h1 p1 (Document_set_data text Document_new) s3 /\
    document_handle h2 p2 Document_new s3.
Proof.
  intros Ht.
  set (s1 := after_new O_indeterminate
               (O_xapian_document_t (S (fresh s))) (O_Document Document_new) s).
  set (s2 := after_new O_indeterminate
               (O_xapian_document_t (S (fresh s1))) (O_Document Document_new) s1).
  assert (H1 : document_handle (fresh s) (S (fresh s)) Document_new s1).
  { split; [apply after_new_handle | apply after_new_object]. }
  assert (H1' : document_handle (fresh s) (S (fresh s)) Document_new s2).
  { destruct H1. split; apply preserved_after_new; assumption. }
  assert (H2 : document_handle (fresh s1) (S (fresh s1)) Document_new s2).
  { split; [apply after_new_handle | apply after_new_object]. }
  assert (Ht2 : C_string_at data text s2).
  { destruct Ht as (a & Ha & Hs). exists a. split; [|assumption].
    do 2 apply preserved_after_new. assumption. }
  assert (Hf : fresh s1 = S (S (fresh s))).
  { unfold s1, after_new. rewrite fresh_set_cell, !fresh_alloc. reflexivity. }
  exists (fresh s), (S (fresh s)), (fresh s1), (S (fresh s1)), s1, s2,
    (set_cell (S (fresh s))
       (Some (O_Document (Document_set_data text Document_new))) s2).
  split; [apply run_document_new|].
  split; [apply run_document_new|].
  split; [rewrite Hf; lia|].
  split; [apply (run_document_set_data _ _ _ _ _ _ H1' Ht2)|].
  split; [eapply document_handle_set; eassumption|].
  destruct H2 as [H2a H2b].
  split; rewrite cell_set_ne by (rewrite Hf; lia); assumption.
Qed.

End Lifetimes.

(** ** Instances of the further properties *)

Lemma one_of_each_term : @C_string_at Ref.strict 1 "c" one_of_each.
Proof. eexists. split; reflexivity. Defined.

Lemma one_of_each_document :
  @document_handle Ref.strict 2 3 (mkDocument "d" [("t", 5%Z)]) one_of_each.
Proof. split; reflexivity. Defined.

Lemma one_of_each_query : @query_handle Ref.strict 4 5 (TermLeaf "a") one_of_each.
Proof. split; reflexivity. Defined.

Lemma one_of_each_database :
  @database_handle Ref.strict 8 9 true (Ref.mkDatabase "/idx" []) one_of_each.
Proof. split; reflexivity. Defined.

Lemma before_open_path (w : Ref.storage) :
  @C_string_at Ref.strict 1 "/idx" (before_open w).
Proof. eexists. split; reflexivity. Defined.

Lemma failed_open_leaks_nothing_witness :
  @C_string_at Ref.strict 1 "/idx" (before_open store_locked) /\
  cell 2 (before_open store_locked) = Some (O_charp NULL) /\
  Ref.open_readable "/idx" store_locked
  = (store_locked,
     inl (XapianError "DatabaseOpeningError" "Couldn't detect type of database /idx")) /\
  exists s',
    xapian_database_new 1 2 (before_open store_locked) = Ret NULL s' /\
    forall r, r <> 2 -> cell r s' = cell r (before_open store_locked).
Proof.
  split; [apply before_open_path|]. split; [reflexivity|]. split; [reflexivity|].
  exact (proj2 (@failed_open_leaks_nothing Ref.strict 1 "/idx" 0%Z 2 NULL
                  (before_open store_locked) _ _
                  (before_open_path store_locked) eq_refl) eq_refl).
Defined.

Lemma successful_open_ignores_errorStr_witness :
  @C_string_at Ref.strict 1 "/idx" (before_open store_idle) /\
  Ref.open_readable "/idx" store_idle = (store_idle, inr (Ref.mkDatabase "/idx" [])) /\
  exists db p s',
    xapian_database_new 1 NULL (before_open store_idle) = Ret db s' /\
    @database_handle Ref.strict db p false (Ref.mkDatabase "/idx" []) s' /\
    cell db (before_open store_idle) = None /\
    cell p (before_open store_idle) = None /\
    forall r, r <> db -> r <> p -> cell r s' = cell r (before_open store_idle).
Proof.
  split; [apply before_open_path|]. split; [reflexivity|].
  exact (proj2 (@successful_open_ignores_errorStr Ref.strict 1 "/idx" 0%Z NULL
                  (before_open store_idle) _ _
                  (before_open_path store_idle)) eq_refl).
Defined.

Lemma failed_open_with_NULL_errorStr_is_undefined_witness :
  @C_string_at Ref.strict 1 "/idx" (before_open store_locked) /\
  Ref.open_writable "/idx" 1 store_locked
  = (store_locked,
     inl (XapianError "DatabaseLockError"
            "Unable to get write lock on /idx: already locked")) /\
  xapian_writable_db_new 1 1 NULL (before_open store_locked) = Undef.
Proof.
  split; [apply before_open_path|]. split; [reflexivity|].
  exact (proj1 (@failed_open_with_NULL_errorStr_is_undefined Ref.strict 1 "/idx"
                  1%Z (before_open store_locked) _ _
                  (before_open_path store_locked)) eq_refl).
Defined.

Lemma failed_constructor_leaks_handle_struct_witness :
  @query_handle faulty 4 5 (TermLeaf "a") one_of_each_faulty /\
  @database_handle faulty 8 9 true (Ref.mkDatabase "/idx" []) one_of_each_faulty /\
  (exists e h s',
     xapian_query_combine 999 4 4 one_of_each_faulty = Throw e s' /\
     cell h one_of_each_faulty = None /\
     cell h s' = Some O_indeterminate /\
     preserved one_of_each_faulty s') /\
  (exists e h s',
     xapian_enquire_new 8 one_of_each_faulty = Throw e s' /\
     cell h one_of_each_faulty = None /\
     cell h s' = Some O_indeterminate /\
     preserved one_of_each_faulty s').
Proof.
  assert (Hq : @query_handle faulty 4 5 (TermLeaf "a") one_of_each_faulty)
    by (split; reflexivity).
  assert (Hd : @database_handle faulty 8 9 true (Ref.mkDatabase "/idx" [])
                 one_of_each_faulty) by (split; reflexivity).
  split; [exact Hq|]. split; [exact Hd|]. split.
  - exact (proj1 (@failed_constructor_leaks_handle_struct faulty 999%Z 4 5
                    (TermLeaf "a") 4 5 (TermLeaf "a") 8 9 true
                    (Ref.mkDatabase "/idx" [])
                    (XapianError "InvalidOperatorError" "unrecognised operator code")
                    one_of_each_faulty)
             Hq Hq eq_refl).
  - exact (proj2 (@failed_constructor_leaks_handle_struct faulty 0%Z 4 5
                    (TermLeaf "a") 4 5 (TermLeaf "a") 8 9 true _
                    (XapianError "DatabaseError" "cannot read") one_of_each_faulty)
             Hd eq_refl).
Defined.

Lemma add_document_to_read_only_database_is_undefined_witness :
  @C_string_at Ref.strict 1 "/idx" (before_open store_idle) /\
  Ref.open_readable "/idx" store_idle = (store_idle, inr (Ref.mkDatabase "/idx" [])) /\
  exists db s',
    xapian_database_new 1 2 (before_open store_idle) = Ret db s' /\
    forall document, xapian_writable_db_add_document db document s' = Undef.
Proof.
  split; [apply before_open_path|]. split; [reflexivity|].
  exact (@add_document_to_read_only_database_is_undefined Ref.strict 1 "/idx" 2
           (before_open store_idle) _ _ (before_open_path store_idle) eq_refl).
Defined.

Lemma add_document_exception_passes_through_witness :
  @database_handle faulty 8 9 true (Ref.mkDatabase "/idx" []) one_of_each_faulty /\
  @document_handle faulty 2 3 (mkDocument "d" [("t", 5%Z)]) one_of_each_faulty /\
  exists e msg s',
    xapian_writable_db_add_document 8 2 one_of_each_faulty = Throw e s' /\
    cell e s' = Some (O_Error "DatabaseError" msg) /\
    cell msg s' = Some (O_string "no space left") /\
    @document_handle faulty 2 3 (mkDocument "d" [("t", 5%Z)]) s' /\
    forall r o, r <> 9 -> cell r one_of_each_faulty = Some o -> cell r s' = Some o.
Proof.
  assert (Hd : @database_handle faulty 8 9 true (Ref.mkDatabase "/idx" [])
                 one_of_each_faulty) by (split; reflexivity).
  assert (Hdoc : @document_handle faulty 2 3 (mkDocument "d" [("t", 5%Z)])
                   one_of_each_faulty) by (split; reflexivity).
  split; [exact Hd|]. split; [exact Hdoc|].
  exact (@add_document_exception_passes_through faulty 8 9 _ 2 3 _
           (XapianError "DatabaseError" "no space left") _ Hd Hdoc eq_refl).
Defined.

Lemma document_is_independent_of_database_after_add_witness :
  @database_handle Ref.strict 8 9 true (Ref.mkDatabase "/idx" []) one_of_each /\
  @document_handle Ref.strict 2 3 (mkDocument "d" [("t", 5%Z)]) one_of_each /\
  @C_string_at Ref.strict 1 "c" one_of_each /\
  exists s1 s2,
    xapian_writable_db_add_document 8 2 one_of_each = Ret tt s1 /\
    @document_handle Ref.strict 2 3 (mkDocument "d" [("t", 5%Z)]) s1 /\
    xapian_document_set_data 2 1 s1 = Ret tt s2 /\
    @database_handle Ref.strict 8 9 true
      (Ref.mkDatabase "/idx" [mkDocument "d" [("t", 5%Z)]]) s2 /\
    @document_handle Ref.strict 2 3 (mkDocument "c" [("t", 5%Z)]) s2.
Proof.
  split; [exact one_of_each_database|]. split; [exact one_of_each_document|].
  split; [exact one_of_each_term|].
  exact (@document_is_independent_of_database_after_add Ref.strict 8 9 _ 2 3 _ 1 "c"
           _ 1%Z _ one_of_each_database one_of_each_document one_of_each_term
           eq_refl).
Defined.

Lemma document_mutators_compose_witness :
  @document_handle Ref.strict 2 3 (mkDocument "d" [("t", 5%Z)]) one_of_each /\
  @C_string_at Ref.strict 1 "c" one_of_each /\
  exists s1 s2 s3 d',
    xapian_document_set_data 2 1 one_of_each = Ret tt s1 /\
    xapian_document_add_posting 2 1 7 s1 = Ret tt s2 /\
    xapian_document_set_data 2 1 s2 = Ret tt s3 /\
    @document_handle Ref.strict 2 3 d' s3 /\
    doc_data d' = "c" /\
    In ("c", termpos_of_int 7) (doc_postings d') /\
    (forall x, In x [("t", 5%Z)] -> In x (doc_postings d')) /\
    forall r, r <> 3 -> cell r s3 = cell r one_of_each.
Proof.
  split; [exact one_of_each_document|]. split; [exact one_of_each_term|].
  exact (@document_mutators_compose Ref.strict 2 3 _ 1 "c" 1 "c" 7%Z 1 "c" _
           one_of_each_document one_of_each_term one_of_each_term
           one_of_each_term).
Defined.

Lemma text_crossing_the_boundary_has_no_NUL_witness :
  @document_handle Ref.strict 2 3 (mkDocument "d" [("t", 5%Z)]) one_of_each /\
  @C_string_at Ref.strict 1 "c" one_of_each /\
  exists s' d',
    xapian_document_set_data 2 1 one_of_each = Ret tt s' /\
    @document_handle Ref.strict 2 3 d' s' /\ NUL_free (doc_data d') = true.
Proof.
  split; [exact one_of_each_document|]. split; [exact one_of_each_term|].
  exact (proj1 (@text_crossing_the_boundary_has_no_NUL Ref.strict 2 3 _ 1 "c"
                  0%Z _ one_of_each_document one_of_each_term)).
Defined.

Lemma terms_equal_up_to_NUL_give_equal_queries_witness :
  cell 1 terms_with_NUL = Some (O_chars (as_C_string bytes_a_NUL_b)) /\
  cell 2 terms_with_NUL = Some (O_chars (as_C_string "a")) /\
  until_NUL bytes_a_NUL_b = until_NUL "a" /\
  exists h1 p1 s1 h2 p2 s2,
    xapian_query_new 1 terms_with_NUL = Ret h1 s1 /\
    xapian_query_new 2 s1 = Ret h2 s2 /\
    h1 <> h2 /\
    @query_handle Ref.strict h1 p1 (TermLeaf (until_NUL bytes_a_NUL_b)) s2 /\
    @query_handle Ref.strict h2 p2 (TermLeaf (until_NUL bytes_a_NUL_b)) s2 /\
    description h1 s2 = description h2 s2.
Proof.
  split; [reflexivity|]. split; [reflexivity|]. split; [reflexivity|].
  exact (@terms_equal_up_to_NUL_give_equal_queries Ref.strict 1 2 bytes_a_NUL_b
           "a" terms_with_NUL eq_refl eq_refl eq_refl).
Defined.

Lemma unterminated_text_is_undefined_witness :
  @document_handle Ref.strict 1 2 Document_new unterminated_chars /\
  cell 3 unterminated_chars = Some (O_chars "abc") /\
  NUL_free "abc" = true /\
  xapian_document_set_data 1 3 unterminated_chars = Undef /\
  xapian_document_add_posting 1 3 0 unterminated_chars = Undef /\
  xapian_query_new 3 unterminated_chars = Undef /\
  (forall options errorStr,
     xapian_writable_db_new 3 options errorStr unterminated_chars = Undef) /\
  (forall errorStr, xapian_database_new 3 errorStr unterminated_chars = Undef).
Proof.
  assert (Hd : @document_handle Ref.strict 1 2 Document_new unterminated_chars)
    by (split; reflexivity).
  split; [exact Hd|]. split; [reflexivity|]. split; [reflexivity|].
  exact (@unterminated_text_is_undefined Ref.strict 1 2 _ 3 "abc" 0%Z _
           Hd eq_refl eq_refl).
Defined.

Lemma posting_position_conversion_is_a_bijection_witness :
  (0 <= 4294967295 < 2 ^ 32)%Z /\
  int_range (int_of_termpos 4294967295) /\
  termpos_of_int (int_of_termpos 4294967295) = 4294967295%Z.
Proof.
  assert (Hu : (0 <= 4294967295 < 2 ^ 32)%Z) by lia.
  split; [exact Hu|].
  exact (proj2 posting_position_conversion_is_a_bijection 4294967295%Z Hu).
Defined.

Lemma describe_leaves_memory_unchanged_witness :
  @query_handle Ref.strict 4 5 (TermLeaf "a") one_of_each /\
  exists r s',
    xapian_query_describe 4 one_of_each = Ret r s' /\
    env s' = env one_of_each /\
    (forall x, cell x s' = cell x one_of_each) /\
    @query_handle Ref.strict 4 5 (TermLeaf "a") s' /\
    description 4 s' = Some "Xapian::Query(a)".
Proof.
  split; [exact one_of_each_query|].
  exact (@describe_leaves_memory_unchanged Ref.strict 4 5 _ _ one_of_each_query).
Defined.

Lemma delete_frees_handle_and_object_witness :
  @document_handle Ref.strict 2 3 (mkDocument "d" [("t", 5%Z)]) one_of_each /\
  exists s',
    xapian_document_delete 2 one_of_each = Ret tt s' /\
    env s' = env one_of_each /\
    cell 2 s' = None /\ cell 3 s' = None /\
    forall r, r <> 2 -> r <> 3 -> cell r s' = cell r one_of_each.
Proof.
  split; [exact one_of_each_document|].
  exact (proj1 (@delete_frees_handle_and_object Ref.strict 2 3 _ (TermLeaf "a")
                  (Ref.mkDatabase "/idx" []) one_of_each) one_of_each_document).
Defined.

Lemma database_delete_closes_and_frees_witness :
  @database_handle Ref.strict 8 9 true (Ref.mkDatabase "/idx" []) one_of_each /\
  exists s',
    xapian_database_delete 8 one_of_each = Ret tt s' /\
    env s' = ref_close true (Ref.mkDatabase "/idx" []) (env one_of_each) /\
    cell 8 s' = None /\ cell 9 s' = None /\
    forall r, r <> 8 -> r <> 9 -> cell r s' = cell r one_of_each.
Proof.
  split; [exact one_of_each_database|].
  exact (@database_delete_closes_and_frees Ref.strict ref_dtor_strict 8 9 true _ _
           one_of_each_database).
Defined.

Lemma query_use_after_delete_is_undefined_witness :
  @query_handle Ref.strict 4 5 (TermLeaf "a") one_of_each /\
  exists s',
    xapian_query_delete 4 one_of_each = Ret tt s' /\
    xapian_query_delete 4 s' = Undef /\
    xapian_query_describe 4 s' = Undef /\
    forall op other,
      xapian_query_combine op 4 other s' = Undef /\
      xapian_query_combine op other 4 s' = Undef.
Proof.
  split; [exact one_of_each_query|].
  exact (@query_use_after_delete_is_undefined Ref.strict 4 5 _ _ one_of_each_query).
Defined.

Lemma document_and_database_use_after_delete_is_undefined_witness :
  @database_handle Ref.strict 8 9 true (Ref.mkDatabase "/idx" []) one_of_each /\
  exists s',
    xapian_database_delete 8 one_of_each = Ret tt s' /\
    xapian_database_delete 8 s' = Undef /\
    xapian_enquire_new 8 s' = Undef /\
    (forall document, xapian_writable_db_add_document 8 document s' = Undef).
Proof.
  split; [exact one_of_each_database|].
  exact (proj2 (@document_and_database_use_after_delete_is_undefined Ref.strict
                  ref_dtor_strict 8 9 Document_new true _ one_of_each)
           one_of_each_database).
Defined.

Lemma null_handle_is_undefined_witness :
  @database_handle Ref.strict 8 9 true (Ref.mkDatabase "/idx" []) one_of_each /\
  @query_handle Ref.strict 4 5 (TermLeaf "a") one_of_each /\
  xapian_writable_db_add_document 8 NULL one_of_each = Undef /\
  (forall op, xapian_query_combine op 4 NULL one_of_each = Undef) /\
  xapian_query_delete NULL one_of_each = Undef.
Proof.
  split; [exact one_of_each_database|]. split; [exact one_of_each_query|].
  pose proof (@null_handle_is_undefined Ref.strict ref_dtor_strict 8 9 _ 4 5 _ _
                one_of_each_database one_of_each_query) as H.
  split; [apply H|]. split; apply H.
Defined.

Lemma handle_of_another_kind_is_undefined_witness :
  @query_handle Ref.strict 4 5 (TermLeaf "a") one_of_each /\
  (forall data, xapian_document_set_data 4 data one_of_each = Undef) /\
  (forall posting pos, xapian_document_add_posting 4 posting pos one_of_each = Undef).
Proof.
  split; [exact one_of_each_query|].
  pose proof (@handle_of_another_kind_is_undefined Ref.strict ref_dtor_strict 4 5
                _ _ one_of_each_query) as H.
  split; apply H.
Defined.

Lemma new_then_delete_restores_memory_witness :
  @C_string_at Ref.strict 1 "c" one_of_each /\
  exists h s1 s2,
    xapian_query_new 1 one_of_each = Ret h s1 /\
    xapian_query_delete h s1 = Ret tt s2 /\
    env s2 = env one_of_each /\ forall r, cell r s2 = cell r one_of_each.
Proof.
  split; [exact one_of_each_term|].
  exact (proj2 (@new_then_delete_restores_memory Ref.strict 1 "c" one_of_each)
           one_of_each_term).
Defined.

Lemma open_then_delete_restores_memory_witness :
  @C_string_at Ref.strict 1 "/idx" (before_open store_idle) /\
  Ref.open_writable "/idx" 1 store_idle
  = (Ref.mkStorage [("/idx", [])] ["/idx"], inr (Ref.mkDatabase "/idx" [])) /\
  exists db s1 s2,
    xapian_writable_db_new 1 1 2 (before_open store_idle) = Ret db s1 /\
    xapian_database_delete db s1 = Ret tt s2 /\
    env s2 = ref_close true (Ref.mkDatabase "/idx" [])
               (Ref.mkStorage [("/idx", [])] ["/idx"]) /\
    forall r, cell r s2 = cell r (before_open store_idle).
Proof.
  split; [apply before_open_path|]. split; [reflexivity|].
  exact (proj1 (@open_then_delete_restores_memory Ref.strict ref_dtor_strict 1
                  "/idx" 1%Z 2 (before_open store_idle) _ _
                  (before_open_path store_idle)) eq_refl).
Defined.

Lemma combined_query_survives_operand_deletion_witness :
  @query_handle Ref.strict 3 4 (TermLeaf "a") two_queries_built /\
  @query_handle Ref.strict 5 6 (TermLeaf "b") two_queries_built /\
  exists h p s1 s2,
    xapian_query_combine 0 3 5 two_queries_built = Ret h s1 /\
    xapian_query_delete 3 s1 = Ret tt s2 /\
    @query_handle Ref.strict h p (Combine 0 (TermLeaf "a") (TermLeaf "b")) s2 /\
    description h s2 = Some "Xapian::Query((a AND b))" /\
    xapian_query_describe 3 s2 = Undef.
Proof.
  assert (Ha : @query_handle Ref.strict 3 4 (TermLeaf "a") two_queries_built)
    by (split; reflexivity).
  assert (Hb : @query_handle Ref.strict 5 6 (TermLeaf "b") two_queries_built)
    by (split; reflexivity).
  split; [exact Ha|]. split; [exact Hb|].
  exact (@combined_query_survives_operand_deletion Ref.strict 0%Z
           3 4 _ 5 6 _ _ _ Ha Hb eq_refl).
Defined.

Lemma documents_do_not_alias_witness :
  @C_string_at Ref.strict 1 "c" one_of_each /\
  exists h1 p1 h2 p2 s1 s2 s3,
    xapian_document_new one_of_each = Ret h1 s1 /\
    xapian_document_new s1 = Ret h2 s2 /\
    h1 <> h2 /\
    xapian_document_set_data h1 1 s2 = Ret tt s3 /\
    @document_handle Ref.strict h1 p1 (mkDocument "c" []) s3 /\
    @document_handle Ref.strict h2 p2 Document_new s3.
Proof.
  split; [exact one_of_each_term|].
  exact (@documents_do_not_alias Ref.strict 1 "c" _ one_of_each_term).
Defined.
